(** * Autoscaling control loop and worker registry of the Ollama orchestrator

    A shallow embedding of [scaling.go] (the scaling manager) and of the
    request handlers file (the routing path: [ensureModelRunning],
    [startOllamaContainer], [countActiveModels]), followed by the properties
    of the specification that were checked against it.

    Conventions of the embedding:
    - Go's [int] is a 64-bit two's complement integer: a [Z] with the
      wrap-around written out ([wrap]); [/] on [int] is [Z.quot].
    - [float64] is IEEE 754 binary64, taken from the executable
      specification [SpecFloat] of the Standard Library.
    - the two package-level maps are [gmap string Z] (a missing key reads as
      the zero value), the [sync.Map] is a [gmap string string];
    - [scalingLock] is a field of the state: [Lock] on a held mutex never
      returns ([sync.Mutex] is not re-entrant);
    - the container runtime ([docker run], [docker stop]) is an oracle that
      answers from the history of the calls made so far; every call is
      appended to a trace. *)

From Stdlib Require Import ZArith Lia Bool List Ascii String.
From Stdlib Require Import Floats.SpecFloat.
From stdpp Require Import base option list strings pretty gmap fin_maps.

Local Open Scope Z_scope.

(** ** Machine integers *)

Module GoInt.

Definition min_int : Z := - 2 ^ 63.
Definition max_int : Z := 2 ^ 63 - 1.

(** Two's complement wrap-around of a 64-bit signed integer. *)
Definition wrap (z : Z) : Z := (z + 2 ^ 63) mod 2 ^ 64 - 2 ^ 63.

Definition in_range (z : Z) : Prop := min_int <= z <= max_int.

Definition add (a b : Z) : Z := wrap (a + b).
Definition sub (a b : Z) : Z := wrap (a - b).

(** Go's integer division truncates toward zero. *)
Definition quot (a b : Z) : Z := wrap (Z.quot a b).

End GoInt.

(** ** float64 *)

Module Float64.

Definition prec : Z := 53.
Definition emax : Z := 1024.

Definition t := spec_float.

Definition of_Z (z : Z) : t := binary_normalize prec emax z 0 false.

Definition zero : t := S754_zero false.

(** The constant [0.9]: the binary64 number nearest to 9/10. *)
Definition c0_9 : t := S754_finite false 8106479329266893 (-53).
Definition c70 : t := Eval vm_compute in of_Z 70.
Definition c4000 : t := Eval vm_compute in of_Z 4000.

Definition mul : t -> t -> t := SFmul prec emax.
Definition div : t -> t -> t := SFdiv prec emax.

(** [a > b] on floats: false as soon as one side is a NaN. *)
Definition gtb (a b : t) : bool := SFltb b a.
Definition leb (a b : t) : bool := SFleb a b.

(** The integer part of a finite float, rounding toward zero. *)
Definition truncate (f : t) : option Z :=
  match f with
  | S754_zero _ => Some 0
  | S754_finite s m e =>
      Some (if 0 <=? e then cond_Zopp s (Zpos m) * 2 ^ e
            else Z.quot (cond_Zopp s (Zpos m)) (2 ^ (- e)))
  | S754_infinity _ | S754_nan => None
  end.

(** The mathematical floor of a finite float. *)
Definition floor (f : t) : option Z :=
  match f with
  | S754_zero _ => Some 0
  | S754_finite s m e =>
      Some (if 0 <=? e then cond_Zopp s (Zpos m) * 2 ^ e
            else Z.div (cond_Zopp s (Zpos m)) (2 ^ (- e)))
  | S754_infinity _ | S754_nan => None
  end.

(** The values on which the conversion [int(f)] is defined by the
    language: finite, with an integer part that fits an [int]. *)
Definition fits_int (f : t) : bool :=
  match truncate f with
  | Some z => (GoInt.min_int <=? z) && (z <=? GoInt.max_int)
  | None => false
  end.

(** The conversion [int(f)]. Outside [fits_int] the language leaves the
    result to the implementation; the gc compiler on amd64 yields the
    smallest [int] there (the "integer indefinite" of CVTTSD2SI). *)
Definition to_int (f : t) : Z :=
  match truncate f with
  | Some z =>
      if (GoInt.min_int <=? z) && (z <=? GoInt.max_int) then z
      else GoInt.min_int
  | None => GoInt.min_int
  end.

(** Not negative: [+0], [-0], the positive finite numbers and [+Inf]. *)
Definition nonneg (f : t) : bool := leb zero f.

End Float64.

(** ** The scaling decision *)

Record ScalingMetrics := {
  GPUUtilization : Float64.t;
  VRAMUsed : Float64.t;
  Requests : Z
}.

(** The zero value [ScalingMetrics{}]. *)
Definition zeroMetrics : ScalingMetrics :=
  {| GPUUtilization := Float64.zero; VRAMUsed := Float64.zero; Requests := 0 |}.

(** The value of the local variable [base] when the VRAM cap is reached. *)
Definition desiredBase (requests : Z) (metrics : ScalingMetrics) : Z :=
  let base := 1 in
  let base :=
    if Float64.gtb (GPUUtilization metrics) Float64.c70
    then GoInt.add base 1 else base in
  let base :=
    if 10 <? requests
    then GoInt.add base (GoInt.quot requests 5) else base in
  base.

(** The float expression [(metrics.VRAMUsed * 0.9) / 4000]. *)
Definition vramQuotient (metrics : ScalingMetrics) : Float64.t :=
  Float64.div (Float64.mul (VRAMUsed metrics) Float64.c0_9) Float64.c4000.

Definition maxByVRAM (metrics : ScalingMetrics) : Z :=
  Float64.to_int (vramQuotient metrics).

Definition calculateDesiredWorkers
    (model : string) (requests : Z) (metrics : ScalingMetrics) : Z :=
  let base := desiredBase requests metrics in
  let maxByVRAM := maxByVRAM metrics in
  if maxByVRAM <? base then maxByVRAM else base.

(** ** Shared state, the runtime oracle and the effect monad *)

Inductive DockerCmd :=
| DockerRun (model port : string)
| DockerStop (model port : string).

(** One call to the container runtime, with its reported result. *)
Record Event := { cmd : DockerCmd; succeeded : bool }.

Definition basePort : Z := 11434.

Record State := {
  scalingLock : bool;                  (* true: the mutex is held *)
  currentWorkers : gmap string Z;      (* model -> worker count *)
  requestCounts : gmap string Z;       (* model -> request count *)
  nextPort : Z;
  activeModels : gmap string string;   (* model -> port *)
  trace : list Event                   (* runtime calls, latest first *)
}.

Definition initialState : State :=
  {| scalingLock := false; currentWorkers := ∅; requestCounts := ∅;
     nextPort := 11434; activeModels := ∅; trace := [] |}.

Definition set_scalingLock (b : bool) (st : State) : State :=
  {| scalingLock := b; currentWorkers := currentWorkers st;
     requestCounts := requestCounts st; nextPort := nextPort st;
     activeModels := activeModels st; trace := trace st |}.

Definition set_currentWorkers (m : gmap string Z) (st : State) : State :=
  {| scalingLock := scalingLock st; currentWorkers := m;
     requestCounts := requestCounts st; nextPort := nextPort st;
     activeModels := activeModels st; trace := trace st |}.

Definition set_requestCounts (m : gmap string Z) (st : State) : State :=
  {| scalingLock := scalingLock st; currentWorkers := currentWorkers st;
     requestCounts := m; nextPort := nextPort st;
     activeModels := activeModels st; trace := trace st |}.

Definition set_nextPort (p : Z) (st : State) : State :=
  {| scalingLock := scalingLock st; currentWorkers := currentWorkers st;
     requestCounts := requestCounts st; nextPort := p;
     activeModels := activeModels st; trace := trace st |}.

Definition set_activeModels (m : gmap string string) (st : State) : State :=
  {| scalingLock := scalingLock st; currentWorkers := currentWorkers st;
     requestCounts := requestCounts st; nextPort := nextPort st;
     activeModels := m; trace := trace st |}.

Definition set_trace (t : list Event) (st : State) : State :=
  {| scalingLock := scalingLock st; currentWorkers := currentWorkers st;
     requestCounts := requestCounts st; nextPort := nextPort st;
     activeModels := activeModels st; trace := t |}.

(** How a call ends: it returns, it waits forever on [scalingLock], or it
    panics. The state is the one reached at that point. *)
Inductive Outcome (A : Type) :=
| Done (a : A) (st : State)
| Blocked (st : State)
| Panicked (st : State).
Arguments Done {A} a st.
Arguments Blocked {A} st.
Arguments Panicked {A} st.

Definition M (A : Type) : Type := State -> Outcome A.

Definition ret {A} (a : A) : M A := fun st => Done a st.

Definition bind {A B} (c : M A) (k : A -> M B) : M B :=
  fun st =>
    match c st with
    | Done a st' => k a st'
    | Blocked st' => Blocked st'
    | Panicked st' => Panicked st'
    end.

Notation "'let*' x ':=' c 'in' k" := (bind c (fun x => k))
  (at level 10, x name, c at level 100, k at level 200).
Notation "c ';;' k" := (bind c (fun _ => k))
  (at level 100, k at level 200, right associativity).

Definition get : M State := fun st => Done st st.
Definition modify (f : State -> State) : M unit := fun st => Done tt (f st).

(** The state in which a call ended. *)
Definition finalState {A} (o : Outcome A) : State :=
  match o with
  | Done _ st | Blocked st | Panicked st => st
  end.

(** [scalingLock.Lock(); defer scalingLock.Unlock(); body]. The deferred
    unlock also runs while a panic unwinds. *)
Definition withLock {A} (body : M A) : M A :=
  fun st =>
    if scalingLock st then Blocked st
    else match body (set_scalingLock true st) with
         | Done a st' => Done a (set_scalingLock false st')
         | Blocked st' => Blocked st'
         | Panicked st' => Panicked (set_scalingLock false st')
         end.

(** Reading a Go [map[string]int]: a missing key gives 0. *)
Definition intAt (m : gmap string Z) (k : string) : Z := default 0 (m !! k).

(** [sync.Map.Range] with a callback that always returns [true]. The order
    of the visit is not specified by the library: the model visits the
    entries in the order of [map_to_list]. *)
Definition Range {A} (m : gmap string string)
    (f : string -> string -> A -> A) (init : A) : A :=
  foldl (fun acc kv => f kv.1 kv.2 acc) init (map_to_list m).

Definition getModelPorts (model : string) (st : State) : list string :=
  Range (activeModels st)
    (fun key value ports =>
       if decide (key = model) then ports ++ [value] else ports) [].

Definition getActiveModels (st : State) : list string :=
  Range (activeModels st) (fun key _ models => models ++ [key]) [].

Definition countActiveModels (st : State) : Z :=
  Range (activeModels st) (fun _ _ count => GoInt.add count 1) 0.

(** The payload of [listModelsHandler]: the models and their number. *)
Definition listModelsHandler (st : State) : list string * Z :=
  let models := getActiveModels st in
  (models, Z.of_nat (length models)).

(** *** Reading the GPU metrics *)

(** What running [nvidia-smi] gave: an error, or the bytes of its output. *)
Inductive ProbeResult :=
| ProbeError
| ProbeOutput (out : string).

(** A value, or a run-time panic (here: index out of range). *)
Inductive Result (A : Type) :=
| Value (a : A)
| Panic.
Arguments Value {A} a.
Arguments Panic {A}.

(** The white space of [strings.TrimSpace] among the ASCII characters:
    tab, line feed, vertical tab, form feed, carriage return and space.
    The Unicode white space beyond ASCII (U+0085, U+00A0, ...) is not
    modelled; none of it is a comma, which is all the properties below
    depend on. *)
Definition isSpace (c : ascii) : bool :=
  let n := Ascii.nat_of_ascii c in
  ((9 <=? n)%nat && (n <=? 13)%nat) || (n =? 32)%nat.

Fixpoint trimLeft (s : string) : string :=
  match s with
  | EmptyString => EmptyString
  | String c s' => if isSpace c then trimLeft s' else s
  end.

Fixpoint trimRight (s : string) : string :=
  match s with
  | EmptyString => EmptyString
  | String c s' =>
      match trimRight s' with
      | EmptyString => if isSpace c then EmptyString else String c EmptyString
      | r => String c r
      end
  end.

Definition TrimSpace (s : string) : string := trimRight (trimLeft s).

(** [strings.Split(s, sep)] for a separator of one byte: the pieces between
    the separators, one more than there are separators. *)
Fixpoint Split (s : string) (sep : ascii) : list string :=
  match s with
  | EmptyString => [EmptyString]
  | String c s' =>
      if Ascii.eqb c sep then EmptyString :: Split s' sep
      else match Split s' sep with
           | piece :: pieces => String c piece :: pieces
           | [] => [String c EmptyString]
           end
  end.

(** [parts[i]]: panics when [i] is out of range. *)
Definition index {A} (parts : list A) (i : nat) : Result A :=
  match parts !! i with
  | Some x => Value x
  | None => Panic
  end.

(** The [docker run] calls made for [model], whatever their result. *)
Definition isStartOf (model : string) (ev : Event) : bool :=
  match cmd ev with
  | DockerRun m _ => bool_decide (m = model)
  | DockerStop _ _ => false
  end.

Definition startCalls (model : string) (t : list Event) : list Event :=
  List.filter (isStartOf model) t.

Section Runtime.

(** The answer of the container runtime to a command, given the calls made
    before it. *)
Variable docker : list Event -> DockerCmd -> bool.

(** [exec.Command("docker", ...).Run()]; [true] stands for a nil error. *)
Definition dockerExec (c : DockerCmd) : M bool :=
  fun st =>
    let ok := docker (trace st) c in
    Done ok (set_trace ({| cmd := c; succeeded := ok |} :: trace st) st).

(** The model pull is started in a goroutine of its own and its result is
    dropped; it does not touch the state and is left out. *)
Definition startOllamaContainer (model port : string) : M bool :=
  let* ok := dockerExec (DockerRun model port) in
  if ok
  then modify (fun st => set_activeModels (<[model := port]> (activeModels st)) st);;
       ret true
  else ret false.

Definition stopOllamaContainer (model port : string) : M bool :=
  modify (fun st => set_activeModels (delete model (activeModels st)) st);;
  dockerExec (DockerStop model port).

Definition TrackRequest (model : string) : M unit :=
  withLock
    (modify (fun st =>
       set_requestCounts
         (<[model := GoInt.add (intAt (requestCounts st) model) 1]>
            (requestCounts st)) st)).

Definition findAvailablePort : M string :=
  withLock
    (let* st := get in
     let port := nextPort st in
     modify (set_nextPort (GoInt.add (nextPort st) 1));;
     ret (pretty port)).

(** The loop of [scaleUpModel]; [n] is the number of iterations left. *)
Fixpoint scaleUpLoop (model : string) (n : nat) : M unit :=
  match n with
  | O => ret tt
  | S n' =>
      let* port := findAvailablePort in
      let* ok := startOllamaContainer model port in
      (if ok
       then modify (fun st =>
              set_currentWorkers
                (<[model := GoInt.add (intAt (currentWorkers st) model) 1]>
                   (currentWorkers st)) st)
       else ret tt);;
      scaleUpLoop model n'
  end.

Definition scaleUpModel (model : string) (count : Z) : M unit :=
  scaleUpLoop model (Z.to_nat count).

(** The loop of [scaleDownModel]: [ports] is read once before the loop and
    never updated; [ports[len(ports)-1]] is [last ports]. *)
Fixpoint scaleDownLoop (model : string) (ports : list string) (n : nat) : M unit :=
  match n with
  | O => ret tt
  | S n' =>
      if (1 <? length ports)%nat then
        match last ports with
        | Some port =>
            let* ok := stopOllamaContainer model port in
            (if ok
             then modify (fun st =>
                    set_currentWorkers
                      (<[model := GoInt.sub (intAt (currentWorkers st) model) 1]>
                         (currentWorkers st)) st)
             else ret tt);;
            scaleDownLoop model ports n'
        | None => fun st => Panicked st
        end
      else ret tt
  end.

Definition scaleDownModel (model : string) (count : Z) : M unit :=
  let* st := get in
  let ports := getModelPorts model st in
  scaleDownLoop model ports (Z.to_nat count).

Section Probe.

(** The float returned by [strconv.ParseFloat(s, 64)]; the error returned
    with it is dropped by the caller. *)
Variable ParseFloat : string -> Float64.t.

Definition getSystemMetrics (probe : ProbeResult) : Result ScalingMetrics :=
  match probe with
  | ProbeError => Value zeroMetrics
  | ProbeOutput out =>
      let parts := Split (TrimSpace out) "," in
      match index parts 0 with
      | Panic => Panic
      | Value p0 =>
          let gpuUtil := ParseFloat (TrimSpace p0) in
          match index parts 1 with
          | Panic => Panic
          | Value p1 =>
              let vramUsed := ParseFloat (TrimSpace p1) in
              Value {| GPUUtilization := gpuUtil; VRAMUsed := vramUsed;
                       Requests := 0 |}
          end
      end
  end.

(** *** The scaling cycle *)

(** The body of the loop over the active models. *)
Definition scaleOne (metrics : ScalingMetrics) (model : string) : M unit :=
  let* st := get in
  let requests := intAt (requestCounts st) model in
  let workers := intAt (currentWorkers st) model in
  let desiredWorkers := calculateDesiredWorkers model requests metrics in
  (if workers <? desiredWorkers
   then scaleUpModel model (GoInt.sub desiredWorkers workers)
   else if desiredWorkers <? workers
        then scaleDownModel model (GoInt.sub workers desiredWorkers)
        else ret tt);;
  modify (fun st => set_requestCounts (<[model := 0]> (requestCounts st)) st).

Fixpoint scaleAll (metrics : ScalingMetrics) (models : list string) : M unit :=
  match models with
  | [] => ret tt
  | model :: rest => scaleOne metrics model;; scaleAll metrics rest
  end.

(** One cycle; [probe] is what [nvidia-smi] answers in this cycle. *)
Definition scaleModelsBasedOnDemand (probe : ProbeResult) : M unit :=
  withLock
    (fun st =>
       match getSystemMetrics probe with
       | Panic => Panicked st
       | Value metrics => scaleAll metrics (getActiveModels st) st
       end).

(** *** The cycle, step by step

    The cycle followed through the points where other goroutines may run:
    before [scalingLock.Lock()], before each iteration of the loop over the
    models, and before the deferred unlock. The values of [requests] read so
    far are kept beside the position (they are not part of the program's
    state). *)

Inductive CyclePc :=
| CycleLock                                   (* before [Lock] *)
| CycleLoop (metrics : ScalingMetrics) (models : list string)
            (reads : list (string * Z))       (* [models] are still to do *)
| CycleReturned (reads : list (string * Z))
| CycleBlocked (reads : list (string * Z))    (* stuck in a scale-up *)
| CyclePanicked.

Definition cycleStep (probe : ProbeResult) (pc : CyclePc) (st : State)
    : CyclePc * State :=
  match pc with
  | CycleLock =>
      if scalingLock st then (CycleLock, st)  (* still waiting for the mutex *)
      else
        let st1 := set_scalingLock true st in
        match getSystemMetrics probe with
        | Panic => (CyclePanicked, set_scalingLock false st1)
        | Value metrics => (CycleLoop metrics (getActiveModels st1) [], st1)
        end
  | CycleLoop metrics [] reads => (CycleReturned reads, set_scalingLock false st)
  | CycleLoop metrics (model :: rest) reads =>
      let reads' := reads ++ [(model, intAt (requestCounts st) model)] in
      match scaleOne metrics model st with
      | Done _ st' => (CycleLoop metrics rest reads', st')
      | Blocked st' => (CycleBlocked reads', st')
      | Panicked st' => (CyclePanicked, set_scalingLock false st')
      end
  | CycleReturned _ | CycleBlocked _ | CyclePanicked => (pc, st)
  end.

(** [StartScalingManager]: the goroutine runs one cycle for each tick it
    receives, one after the other; [probes] gives what [nvidia-smi] answers
    at each of the ticks. A cycle that does not return ends the loop. *)
Fixpoint StartScalingManager (probes : list ProbeResult) : M unit :=
  match probes with
  | [] => ret tt
  | probe :: rest => scaleModelsBasedOnDemand probe;; StartScalingManager rest
  end.

End Probe.

(** *** The routing path *)

(** [Some port] for [(port, nil)], [None] for an error. *)
Definition ensureModelRunning (model : string) : M (option string) :=
  let* st := get in
  match activeModels st !! model with
  | Some port => ret (Some port)
  | None =>
      let port := pretty (GoInt.add basePort (countActiveModels st)) in
      let* ok := startOllamaContainer model port in
      if ok then ret (Some port) else ret None
  end.

(** [generateHandler] for a request whose body has decoded to [model], up
    to the forwarding of the request. (A body that does not decode is
    answered 400 before anything else is done.) *)
Definition route (model : string) : M (option string) :=
  TrackRequest model;;
  ensureModelRunning model.

(** Requests served one after the other, with the answer to each. *)
Fixpoint routeAll (models : list string) : M (list (option string)) :=
  match models with
  | [] => ret []
  | model :: rest =>
      let* r := route model in
      let* rs := routeAll rest in
      ret (r :: rs)
  end.

(** [TrackRequest] called for each model of the list, in order. *)
Fixpoint trackAll (models : list string) : M unit :=
  match models with
  | [] => ret tt
  | model :: rest => TrackRequest model;; trackAll rest
  end.

(** [n] calls of [TrackRequest] for one model. *)
Fixpoint trackRequests (model : string) (n : nat) : M unit :=
  match n with
  | O => ret tt
  | S n' => TrackRequest model;; trackRequests model n'
  end.

(** *** Concurrent requests

    Each inbound request runs [generateHandler] in a goroutine of its own.
    A request is followed through the points where it touches the shared
    state or the runtime; between two of them any other request may run. *)

Inductive RoutePc :=
| AtTrack                   (* before [TrackRequest] *)
| AtLoad                    (* before [activeModels.Load] *)
| AtCount                   (* before [countActiveModels] *)
| AtRun (port : string)     (* before [docker run] *)
| AtStore (port : string)   (* before [activeModels.Store] *)
| Returned (r : option string).

Definition routeStep (model : string) (pc : RoutePc) (st : State) : RoutePc * State :=
  match pc with
  | AtTrack =>
      match TrackRequest model st with
      | Done _ st' => (AtLoad, st')
      | _ => (AtTrack, st)          (* still waiting for the mutex *)
      end
  | AtLoad =>
      match activeModels st !! model with
      | Some port => (Returned (Some port), st)
      | None => (AtCount, st)
      end
  | AtCount =>
      (AtRun (pretty (GoInt.add basePort (countActiveModels st))), st)
  | AtRun port =>
      match dockerExec (DockerRun model port) st with
      | Done true st' => (AtStore port, st')
      | Done false st' => (Returned None, st')
      | _ => (AtRun port, st)
      end
  | AtStore port =>
      (Returned (Some port),
       set_activeModels (<[model := port]> (activeModels st)) st)
  | Returned r => (Returned r, st)
  end.

(** The requests in flight: the model each one asks for and where it is. *)
Definition Threads := list (string * RoutePc).

(** The request number [i] makes one step. *)
Definition stepThread (i : nat) (ts : Threads) (st : State) : Threads * State :=
  match ts !! i with
  | Some (model, pc) =>
      let '(pc', st') := routeStep model pc st in
      (<[i := (model, pc')]> ts, st')
  | None => (ts, st)
  end.

(** *** One cycle among the requests *)

(** The cycle, the requests in flight, the shared state and, for the
    statement of properties, the models of the [TrackRequest] calls that
    have returned so far. *)
Record System := {
  cyclePc : CyclePc;
  threads : Threads;
  shared : State;
  counted : list string
}.

Inductive Turn :=
| CycleTurn
| RequestTurn (i : nat).

Definition stepSystem (ParseFloat : string -> Float64.t) (probe : ProbeResult)
    (turn : Turn) (sys : System) : System :=
  match turn with
  | CycleTurn =>
      let '(pc', st') := cycleStep ParseFloat probe (cyclePc sys) (shared sys) in
      {| cyclePc := pc'; threads := threads sys; shared := st';
         counted := counted sys |}
  | RequestTurn i =>
      match threads sys !! i with
      | Some (model, pc) =>
          let '(pc', st') := routeStep model pc (shared sys) in
          {| cyclePc := cyclePc sys;
             threads := <[i := (model, pc')]> (threads sys);
             shared := st';
             counted := match pc, pc' with
                        | AtTrack, AtLoad => model :: counted sys
                        | _, _ => counted sys
                        end |}
      | None => sys
      end
  end.

Fixpoint runSystem (ParseFloat : string -> Float64.t) (probe : ProbeResult)
    (schedule : list Turn) (sys : System) : System :=
  match schedule with
  | [] => sys
  | turn :: rest =>
      runSystem ParseFloat probe rest (stepSystem ParseFloat probe turn sys)
  end.

(** A schedule names, step after step, the request that runs. *)
Fixpoint runSchedule (schedule : list nat) (ts : Threads) (st : State) : Threads * State :=
  match schedule with
  | [] => (ts, st)
  | i :: rest =>
      let '(ts', st') := stepThread i ts st in
      runSchedule rest ts' st'
  end.

End Runtime.

(** ** The decision as the specification words it *)

Module Spec.

(** Base = 1, plus 1 if the GPU utilization is above 70, plus
    floor(requests / 5) if requests is above 10. *)
Definition base (requests : Z) (metrics : ScalingMetrics) : Z :=
  1 + (if Float64.gtb (GPUUtilization metrics) Float64.c70 then 1 else 0)
    + (if 10 <? requests then requests / 5 else 0).

(** maxByVRAM = floor(vramUsedMB * 0.9 / 4000), the product and the quotient
    being those of [float64]; undefined when the quotient is not finite. *)
Definition vramCap (metrics : ScalingMetrics) : option Z :=
  Float64.floor
    (Float64.div (Float64.mul (VRAMUsed metrics) Float64.c0_9) Float64.c4000).

(** desired = min(base, maxByVRAM). *)
Definition desiredWorkerCount (requests : Z) (metrics : ScalingMetrics) : option Z :=
  Z.min (base requests metrics) <$> vramCap metrics.

End Spec.

(** Whether the byte [c] occurs in [s]. *)
Fixpoint contains (c : ascii) (s : string) : bool :=
  match s with
  | EmptyString => false
  | String c' s' => Ascii.eqb c' c || contains c s'
  end.






(** A request that may still send a start for [model]. *)
Definition mayStart (model : string) (t : string * RoutePc) : bool :=
  bool_decide (t.1 = model)
  && match t.2 with
     | AtTrack | AtLoad | AtCount | AtRun _ => true
     | AtStore _ | Returned _ => false
     end.

(** ** Sample inputs *)

Definition metricsOf (gpu vram : Z) : ScalingMetrics :=
  {| GPUUtilization := Float64.of_Z gpu; VRAMUsed := Float64.of_Z vram;
     Requests := 0 |}.

(** A runtime on which every call succeeds, and one on which every call
    fails. *)
Definition dockerOk : list Event -> DockerCmd -> bool := fun _ _ => true.
Definition dockerDown : list Event -> DockerCmd -> bool := fun _ _ => false.

(** A runtime whose first call fails and whose later calls succeed. *)
Definition dockerFlaky : list Event -> DockerCmd -> bool :=
  fun history _ => negb (bool_decide (history = [])).


(** A number parser that knows the two numbers of the sample output. *)
Definition parseSample (s : string) : Float64.t :=
  if decide (s = "80") then Float64.of_Z 80
  else if decide (s = "20000") then Float64.of_Z 20000
  else Float64.zero.

(** No two models of the registry share a port. *)
Definition distinctPorts (st : State) : Prop :=
  forall m1 m2 port,
    activeModels st !! m1 = Some port ->
    activeModels st !! m2 = Some port -> m1 = m2.

(** Every registered port is [basePort + k] for a [k] below the number of
    registered models. *)
Definition portsBelowCount (st : State) : Prop :=
  forall model port,
    activeModels st !! model = Some port ->
    exists k, 0 <= k < Z.of_nat (size (activeModels st))
              /\ port = pretty (basePort + k).


(** Two requests that take turns, step by step, until both have returned. *)
Definition alternate : list nat := [0; 1; 0; 1; 0; 1; 0; 1; 0; 1]%nat.

(** A registry with the single model "llama" on port 11434. *)
Definition oneModel : State :=
  {| scalingLock := false; currentWorkers := {[ "llama" := 1 ]};
     requestCounts := ∅; nextPort := 11435;
     activeModels := {[ "llama" := "11434" ]}; trace := [] |}.

(** A float that is neither a negative finite number nor [-Inf]. *)
Definition notNegative (f : Float64.t) : Prop :=
  match f with
  | S754_finite true _ _ | S754_infinity true => False
  | _ => True
  end.

(** ** Machine integers: the wrap-around is the identity in range *)

Lemma wrap_id z : GoInt.in_range z -> GoInt.wrap z = z.
Proof.
  unfold GoInt.in_range, GoInt.wrap, GoInt.min_int, GoInt.max_int. intros H.
  rewrite Z.mod_small; lia.
Qed.

Lemma wrap_in_range z : GoInt.in_range (GoInt.wrap z).
Proof.
  unfold GoInt.in_range, GoInt.wrap, GoInt.min_int, GoInt.max_int.
  pose proof (Z.mod_pos_bound (z + 2 ^ 63) (2 ^ 64)). lia.
Qed.

(** ** Properties of the scaling decision *)

Section Decision.

Implicit Types (requests : Z) (metrics : ScalingMetrics) (f : Float64.t).

Lemma binary_round_aux_sign (m e : Z) (l : location) :
  notNegative (binary_round_aux Float64.prec Float64.emax false m e l).
Proof.
  unfold binary_round_aux.
  destruct (shr_fexp _ _ m e l) as [mrs' e'].
  destruct (shr_fexp _ _ _ e' loc_Exact) as [mrs'' e''].
  destruct (shr_m mrs''); simpl; auto.
  destruct (e'' <=? _); simpl; auto.
Qed.

Lemma nonneg_notNegative f : Float64.nonneg f = true -> notNegative f.
Proof.
  destruct f as [s| s | |s m e]; simpl; auto;
    destruct s; simpl; auto; discriminate.
Qed.

Lemma mul_notNegative f :
  notNegative f -> notNegative (Float64.mul f Float64.c0_9).
Proof.
  destruct f as [s| s | |s m e]; simpl; auto.
  - destruct s; simpl; auto.
  - destruct s; simpl; [tauto|]. intros _. apply binary_round_aux_sign.
Qed.

Lemma div_notNegative f :
  notNegative f -> notNegative (Float64.div f Float64.c4000).
Proof.
  destruct f as [s| s | |s m e]; simpl; auto.
  - destruct s; simpl; auto.
  - destruct s; simpl; [tauto|]. intros _.
    unfold Float64.div, Float64.c4000, SFdiv.
    destruct (SFdiv_core_binary _ _ _ _ _ _) as [[mz ez] lz].
    apply binary_round_aux_sign.
Qed.

Lemma vramQuotient_notNegative metrics :
  Float64.nonneg (VRAMUsed metrics) = true -> notNegative (vramQuotient metrics).
Proof.
  intros H. unfold vramQuotient.
  apply div_notNegative, mul_notNegative, nonneg_notNegative, H.
Qed.

(** On floats that are not negative, truncation is the floor. *)
Lemma truncate_floor f : notNegative f -> Float64.truncate f = Float64.floor f.
Proof.
  destruct f as [s| s | |s m e]; simpl; auto.
  destruct s; [tauto|]. intros _. f_equal.
  destruct (0 <=? e) eqn:He; [reflexivity|].
  apply Z.leb_gt in He. simpl.
  apply Z.quot_div_nonneg; [lia|]. apply Z.pow_pos_nonneg; lia.
Qed.

Lemma to_int_truncate f :
  Float64.fits_int f = true -> Float64.truncate f = Some (Float64.to_int f).
Proof.
  unfold Float64.fits_int, Float64.to_int.
  destruct (Float64.truncate f) as [z|]; [|discriminate].
  intros ->. reflexivity.
Qed.

Lemma div5_in_range requests :
  0 <= requests <= GoInt.max_int ->
  GoInt.quot requests 5 = requests / 5 /\ 0 <= requests / 5 <= 2 ^ 61.
Proof.
  unfold GoInt.max_int. intros H.
  assert (Hq : Z.quot requests 5 = requests / 5)
    by (apply Z.quot_div_nonneg; lia).
  assert (0 <= requests / 5 <= 2 ^ 61).
  { split; [apply Z.div_pos; lia|].
    apply Z.lt_succ_r. apply Z.div_lt_upper_bound; lia. }
  split; [|assumption].
  unfold GoInt.quot. rewrite Hq. apply wrap_id.
  unfold GoInt.in_range, GoInt.min_int, GoInt.max_int. lia.
Qed.

Lemma desiredBase_spec requests metrics :
  0 <= requests <= GoInt.max_int ->
  desiredBase requests metrics = Spec.base requests metrics.
Proof.
  intros H. unfold desiredBase, Spec.base.
  destruct (div5_in_range requests H) as [Hd Hb].
  assert (Hadd : forall b, 1 <= b <= 2 ->
            GoInt.add b (GoInt.quot requests 5) = b + requests / 5).
  { intros b Hb'. unfold GoInt.add. rewrite Hd. apply wrap_id.
    unfold GoInt.in_range, GoInt.min_int, GoInt.max_int. lia. }
  replace (GoInt.add 1 1) with 2 by reflexivity.
  destruct (Float64.gtb _ _); destruct (10 <? requests);
    rewrite ?Hadd; lia.
Qed.

(** Whatever the inputs of type [int], [base] is at least 1. *)
Lemma desiredBase_pos requests metrics :
  GoInt.in_range requests -> 1 <= desiredBase requests metrics.
Proof.
  intros [Hlo Hhi]. unfold desiredBase.
  replace (GoInt.add 1 1) with 2 by reflexivity.
  destruct (10 <? requests) eqn:Hr.
  - apply Z.ltb_lt in Hr.
    destruct (div5_in_range requests ltac:(lia)) as [Hd Hb].
    assert (2 <= requests / 5) by (apply Z.div_le_lower_bound; lia).
    assert (Hadd : forall b, 1 <= b <= 2 ->
              GoInt.add b (GoInt.quot requests 5) = b + requests / 5).
    { intros b Hb'. unfold GoInt.add. rewrite Hd. apply wrap_id.
      unfold GoInt.in_range, GoInt.min_int, GoInt.max_int. lia. }
    destruct (Float64.gtb _ _); rewrite Hadd; lia.
  - destruct (Float64.gtb _ _); lia.
Qed.

Lemma calculateDesiredWorkers_min model requests metrics :
  calculateDesiredWorkers model requests metrics
  = Z.min (desiredBase requests metrics) (maxByVRAM metrics).
Proof.
  unfold calculateDesiredWorkers.
  destruct (maxByVRAM metrics <? desiredBase requests metrics) eqn:H.
  - apply Z.ltb_lt in H. lia.
  - apply Z.ltb_ge in H. lia.
Qed.

End Decision.

(** C5, counterexample. A VRAM reading of 1e30 MB is not negative, but its
    quotient is beyond the range of [int]: the conversion gives the
    smallest [int] and the function returns it, where min(base, maxByVRAM)
    is 1. *)
Lemma calculateDesiredWorkers_overflowing_cap :
  ~ (forall (model : string) (requests : Z) (metrics : ScalingMetrics),
       0 <= requests <= GoInt.max_int ->
       Float64.nonneg (GPUUtilization metrics) = true ->
       Float64.nonneg (VRAMUsed metrics) = true ->
       Spec.desiredWorkerCount requests metrics
       = Some (calculateDesiredWorkers model requests metrics)).
Proof.
  intros H.
  specialize (H "llama" 0 (metricsOf 0 (10 ^ 30))).
  assert (Hspec : Spec.desiredWorkerCount 0 (metricsOf 0 (10 ^ 30)) = Some 1)
    by (vm_compute; reflexivity).
  assert (Hcode : calculateDesiredWorkers "llama" 0 (metricsOf 0 (10 ^ 30))
                  = - 2 ^ 63) by (vm_compute; reflexivity).
  rewrite Hspec, Hcode in H.
  assert (Some 1 = Some (- 2 ^ 63)) as Habs.
  { apply H; [unfold GoInt.max_int; lia|reflexivity|reflexivity]. }
  discriminate Habs.
Qed.

(** C5, amended. For requests >= 0 and a VRAM reading that is not negative
    and whose quotient is in the range where the conversion to [int] is
    defined (finite, with an integer part that fits an [int]),
    [calculateDesiredWorkers] is min(base, maxByVRAM) with
    base = 1 + (1 if gpu > 70) + (floor(requests / 5) if requests > 10) and
    maxByVRAM = floor(vram * 0.9 / 4000); with requests = 11 and gpu = 0 the
    base is 3. *)
Theorem calculateDesiredWorkers_refines_spec :
  forall (model : string) (requests : Z) (metrics : ScalingMetrics),
    0 <= requests <= GoInt.max_int ->
    Float64.nonneg (VRAMUsed metrics) = true ->
    Float64.fits_int (vramQuotient metrics) = true ->
    Spec.desiredWorkerCount requests metrics
      = Some (calculateDesiredWorkers model requests metrics)
    /\ Spec.vramCap metrics = Some (maxByVRAM metrics)
    /\ desiredBase requests metrics = Spec.base requests metrics
    /\ (forall vram, desiredBase 11 (metricsOf 0 vram) = 3).
Proof.
  intros model requests metrics Hr Hv Hf.
  assert (Hm : Spec.vramCap metrics = Some (maxByVRAM metrics)).
  { unfold Spec.vramCap, maxByVRAM.
    change (Float64.div _ _) with (vramQuotient metrics).
    rewrite <- truncate_floor by (apply vramQuotient_notNegative, Hv).
    apply to_int_truncate, Hf. }
  split; [|split; [|split]].
  - unfold Spec.desiredWorkerCount. rewrite Hm. simpl. f_equal.
    rewrite calculateDesiredWorkers_min, desiredBase_spec by assumption.
    reflexivity.
  - exact Hm.
  - apply desiredBase_spec, Hr.
  - intros vram. reflexivity.
Qed.

Lemma calculateDesiredWorkers_refines_spec_witness :
  Spec.desiredWorkerCount 12 (metricsOf 80 20000)
  = Some (calculateDesiredWorkers "llama" 12 (metricsOf 80 20000))
  /\ calculateDesiredWorkers "llama" 12 (metricsOf 80 20000) = 4.
Proof.
  split; [|reflexivity].
  refine (proj1 (calculateDesiredWorkers_refines_spec
                   "llama" 12 (metricsOf 80 20000) _ _ _)).
  - unfold GoInt.max_int. lia.
  - reflexivity.
  - reflexivity.
Defined.

(** C6, counterexample. With a negative VRAM reading [maxByVRAM] is
    negative and the function returns it: -1 for -8000 MB, not 0. *)
Lemma calculateDesiredWorkers_negative_cap :
  ~ (forall (model : string) (requests : Z) (metrics : ScalingMetrics),
       maxByVRAM metrics <= 0 ->
       calculateDesiredWorkers model requests metrics = 0).
Proof.
  intros H.
  specialize (H "llama" 0 (metricsOf 0 (-8000))).
  assert (Hcap : maxByVRAM (metricsOf 0 (-8000)) <= 0) by (vm_compute; discriminate).
  specialize (H Hcap). vm_compute in H. discriminate.
Qed.

(** C6, amended. Whenever [maxByVRAM] is 0 or negative,
    [calculateDesiredWorkers] returns [maxByVRAM] itself: 0 when it is 0,
    the negative number when it is negative. *)
Theorem calculateDesiredWorkers_returns_cap :
  forall (model : string) (requests : Z) (metrics : ScalingMetrics),
    GoInt.in_range requests ->
    maxByVRAM metrics <= 0 ->
    calculateDesiredWorkers model requests metrics = maxByVRAM metrics.
Proof.
  intros model requests metrics Hr Hcap.
  rewrite calculateDesiredWorkers_min.
  pose proof (desiredBase_pos requests metrics Hr). lia.
Qed.

Lemma calculateDesiredWorkers_returns_cap_witness :
  calculateDesiredWorkers "llama" 50 (metricsOf 90 (-8000))
  = maxByVRAM (metricsOf 90 (-8000))
  /\ maxByVRAM (metricsOf 90 (-8000)) = -1
  /\ calculateDesiredWorkers "llama" 50 zeroMetrics = 0.
Proof.
  split; [|split; reflexivity].
  refine (calculateDesiredWorkers_returns_cap
            "llama" 50 (metricsOf 90 (-8000)) _ _).
  - unfold GoInt.in_range, GoInt.min_int, GoInt.max_int. lia.
  - vm_compute. discriminate.
Defined.

(** ** The registry: one entry per model *)

Section Registry.

Implicit Types (st : State) (model port : string).

Lemma collect_ports model (l : list (string * string)) (acc : list string) :
  NoDup l.*1 ->
  foldl (fun ports kv =>
           if decide (kv.1 = model) then ports ++ [kv.2] else ports) acc l
  = acc ++ option_list ((list_to_map l : gmap string string) !! model).
Proof.
  revert acc. induction l as [|[k v] l IH]; intros acc Hnd.
  - simpl. rewrite lookup_empty. simpl. by rewrite app_nil_r.
  - apply NoDup_cons in Hnd as [Hk Hnd]. simpl in *.
    rewrite IH by done. destruct (decide (k = model)) as [->|Hne].
    + rewrite lookup_insert_eq.
      rewrite (not_elem_of_list_to_map_1 _ _ Hk). simpl. by rewrite app_nil_r.
    + by rewrite lookup_insert_ne.
Qed.

(** [getModelPorts] is the model's entry of the map, if there is one. *)
Lemma getModelPorts_lookup model st :
  getModelPorts model st = option_list (activeModels st !! model).
Proof.
  unfold getModelPorts, Range.
  rewrite (collect_ports model (map_to_list (activeModels st)) []).
  - by rewrite list_to_map_to_list.
  - apply NoDup_fst_map_to_list.
Qed.

Lemma collect_keys (l : list (string * string)) (acc : list string) :
  foldl (fun models kv => models ++ [kv.1]) acc l = acc ++ l.*1.
Proof.
  revert acc. induction l as [|[k v] l IH]; intros acc; simpl.
  - by rewrite app_nil_r.
  - rewrite IH. by rewrite <- app_assoc.
Qed.

Lemma getActiveModels_keys st :
  getActiveModels st = (map_to_list (activeModels st)).*1.
Proof. unfold getActiveModels, Range. by rewrite collect_keys. Qed.

Lemma getActiveModels_NoDup st : NoDup (getActiveModels st).
Proof. rewrite getActiveModels_keys. apply NoDup_fst_map_to_list. Qed.

Lemma elem_of_getActiveModels model st :
  model ∈ getActiveModels st <-> is_Some (activeModels st !! model).
Proof.
  rewrite getActiveModels_keys, list_elem_of_fmap. split.
  - intros [[k v] [-> Hin]]. apply elem_of_map_to_list in Hin. by exists v.
  - intros [v Hv]. exists (model, v). split; [done|].
    by apply elem_of_map_to_list.
Qed.

(** With at most one port for the model, the loop of [scaleDownModel]
    stops at its first test. *)
Lemma scaleDownLoop_short docker model (ports : list string) n st :
  (length ports <= 1)%nat ->
  scaleDownLoop docker model ports n st = Done tt st.
Proof.
  intros Hlen. destruct n as [|n]; [reflexivity|]. simpl.
  destruct (Nat.ltb_spec 1 (length ports)); [lia|reflexivity].
Qed.

Lemma scaleDownModel_unchanged docker model count st :
  scaleDownModel docker model count st = Done tt st.
Proof.
  unfold scaleDownModel, bind, get.
  apply scaleDownLoop_short. rewrite getModelPorts_lookup.
  destruct (activeModels st !! model); simpl; lia.
Qed.

End Registry.

(** C1. Scale-down of any model by any count (also the count computed from
    a desired number of 0) returns with every model of the active set still
    registered and with the same worker count: a count of 1 or more is not
    taken below 1, and no stop is sent to the runtime. *)
Theorem scaleDownModel_keeps_last_worker :
  forall (docker : list Event -> DockerCmd -> bool)
         (st : State) (model : string) (count : Z) (m : string),
    is_Some (activeModels st !! m) ->
    exists st',
      scaleDownModel docker model count st = Done tt st'
      /\ activeModels st' !! m = activeModels st !! m
      /\ intAt (currentWorkers st') m = intAt (currentWorkers st) m
      /\ (1 <= intAt (currentWorkers st) m -> 1 <= intAt (currentWorkers st') m)
      /\ trace st' = trace st.
Proof.
  intros docker st model count m _. exists st.
  rewrite scaleDownModel_unchanged. auto.
Qed.

Lemma scaleDownModel_keeps_last_worker_witness :
  exists st',
    scaleDownModel dockerOk "llama" 1 oneModel = Done tt st'
    /\ activeModels st' !! "llama" = Some "11434"
    /\ intAt (currentWorkers st') "llama" = 1.
Proof.
  destruct (scaleDownModel_keeps_last_worker dockerOk oneModel "llama" 1 "llama")
    as (st' & Hrun & Hact & Hcnt & _).
  - exists "11434". reflexivity.
  - exists st'. split; [exact Hrun|]. split.
    + rewrite Hact. reflexivity.
    + rewrite Hcnt. reflexivity.
Defined.


(** The helper [stopOllamaContainer] taken alone, outside any scale-down:
    it deletes the model's entry before it calls the runtime, so that a
    direct call whose stop fails returns with the entry gone. *)
Theorem stopOllamaContainer_unregisters_on_failure :
  exists st',
    stopOllamaContainer dockerDown "llama" "11434" oneModel = Done false st'
    /\ activeModels oneModel !! "llama" = Some "11434"
    /\ activeModels st' !! "llama" = None
    /\ getModelPorts "llama" st' = [].
Proof.
  eexists. split; [reflexivity|]. split; [reflexivity|].
  split; vm_compute; reflexivity.
Qed.

(** Whatever the runtime answers, the entry is gone after the call. *)
Lemma stopOllamaContainer_deletes docker model port st :
  exists ok st',
    stopOllamaContainer docker model port st = Done ok st'
    /\ ok = docker (trace st) (DockerStop model port)
    /\ activeModels st' = delete model (activeModels st).
Proof. eexists _, _. split; [reflexivity|]. split; reflexivity. Qed.

(** ** Scale-up *)

Section ScaleUp.

Variable docker : list Event -> DockerCmd -> bool.
Implicit Types (st : State) (model port : string).

Lemma findAvailablePort_unlocked st :
  scalingLock st = false ->
  findAvailablePort st
  = Done (pretty (nextPort st)) (set_nextPort (GoInt.add (nextPort st) 1) st).
Proof.
  intros Hl. unfold findAvailablePort, withLock. rewrite Hl. simpl.
  destruct st; simpl in *; subst; reflexivity.
Qed.

Lemma findAvailablePort_locked st :
  scalingLock st = true -> findAvailablePort st = Blocked st.
Proof. intros Hl. unfold findAvailablePort, withLock. by rewrite Hl. Qed.

(** Called with the mutex held, as it is from the scaling cycle, scale-up
    of one worker or more waits forever on the first port. *)
Lemma scaleUpModel_locked model count st :
  scalingLock st = true -> 0 < count ->
  scaleUpModel docker model count st = Blocked st.
Proof.
  intros Hl Hc. unfold scaleUpModel.
  destruct (Z.to_nat count) as [|n] eqn:Hn; [lia|].
  simpl. unfold bind. by rewrite findAvailablePort_locked.
Qed.

Lemma scaleUpModel_none model count st :
  count <= 0 -> scaleUpModel docker model count st = Done tt st.
Proof.
  intros Hc. unfold scaleUpModel.
  replace (Z.to_nat count) with O by lia. reflexivity.
Qed.

(** With the mutex free, the loop runs all its [n] iterations: one
    [docker run] per iteration, whatever the earlier ones answered. *)
Lemma scaleUpLoop_runs model n st :
  scalingLock st = false ->
  exists st' evs,
    scaleUpLoop docker model n st = Done tt st'
    /\ trace st' = evs ++ trace st
    /\ length evs = n
    /\ Forall (fun ev => isStartOf model ev = true) evs
    /\ scalingLock st' = false
    /\ requestCounts st' = requestCounts st
    /\ intAt (currentWorkers st') model
       = Nat.iter (length (List.filter succeeded evs))
           (fun c => GoInt.add c 1) (intAt (currentWorkers st) model)
    /\ (forall m, m <> model ->
          activeModels st' !! m = activeModels st !! m
          /\ currentWorkers st' !! m = currentWorkers st !! m)
    /\ (is_Some (activeModels st !! model) -> is_Some (activeModels st' !! model)).
Proof.
  revert st. induction n as [|n IH]; intros st Hl.
  - exists st, []. simpl. repeat split; auto.
  - cbn [scaleUpLoop]. unfold bind at 1.
    rewrite findAvailablePort_unlocked by done.
    set (port := pretty (nextPort st)).
    set (st1 := set_nextPort _ st).
    unfold bind at 1. unfold startOllamaContainer, bind at 1, dockerExec.
    set (ok := docker (trace st1) (DockerRun model port)).
    set (ev := {| cmd := DockerRun model port; succeeded := ok |}).
    destruct ok eqn:Hok; simpl.
    + unfold bind, modify.
      match goal with |- context [scaleUpLoop docker model n ?s] =>
        set (st2 := s) end.
      destruct (IH st2 Hl)
        as (st' & evs & Hrun & Htr & Hlen & Hall & Hlk & Hrc & Hcw & Hoth & Hreg).
      exists st', (evs ++ [ev]). rewrite Hrun.
      split; [done|]. split; [by rewrite Htr, <- app_assoc|].
      split; [rewrite length_app; simpl; lia|].
      split.
      { apply Forall_app. split; [done|]. constructor; [|constructor].
        unfold isStartOf. simpl. by apply bool_decide_eq_true. }
      split; [done|]. split; [by rewrite Hrc|].
      split.
      { rewrite Hcw, List.filter_app, length_app. simpl.
        subst ev. simpl. rewrite Nat.iter_add. simpl.
        f_equal. unfold st2, intAt. simpl. by rewrite lookup_insert_eq. }
      split.
      { intros m Hm. destruct (Hoth m Hm) as [Ha Hc]. rewrite Ha, Hc.
        unfold st2. simpl. by rewrite !lookup_insert_ne. }
      intros _. apply Hreg. unfold st2. simpl. rewrite lookup_insert_eq. eauto.
    + unfold bind, ret.
      match goal with |- context [scaleUpLoop docker model n ?s] =>
        set (st2 := s) end.
      destruct (IH st2 Hl)
        as (st' & evs & Hrun & Htr & Hlen & Hall & Hlk & Hrc & Hcw & Hoth & Hreg).
      exists st', (evs ++ [ev]). rewrite Hrun.
      split; [done|]. split; [by rewrite Htr, <- app_assoc|].
      split; [rewrite length_app; simpl; lia|].
      split.
      { apply Forall_app. split; [done|]. constructor; [|constructor].
        unfold isStartOf. simpl. by apply bool_decide_eq_true. }
      split; [done|]. split; [by rewrite Hrc|].
      split.
      { rewrite Hcw, List.filter_app, length_app. simpl.
        subst ev. simpl. by rewrite Nat.add_0_r. }
      split.
      { intros m Hm. destruct (Hoth m Hm) as [Ha Hc]. by rewrite Ha, Hc. }
      intros H. by apply Hreg.
Qed.

End ScaleUp.

(** [scaleUpModel] taken alone, with the mutex free (not as the cycle
    calls it): on a runtime where every start fails, scale-up by two sends
    two starts, the second one after the first has failed. *)
Lemma scaleUpModel_continues_after_failure :
  exists st',
    scaleUpModel dockerDown "llama" 2 initialState = Done tt st'
    /\ trace st'
       = [ {| cmd := DockerRun "llama" "11435"; succeeded := false |};
           {| cmd := DockerRun "llama" "11434"; succeeded := false |} ]
    /\ currentWorkers st' = ∅.
Proof. eexists. split; [reflexivity|]. split; vm_compute; reflexivity. Qed.

(** Run with the mutex free, [scaleUpModel] sends exactly [count] starts
    for the model, whether earlier ones failed or not; a failed start only
    skips the increment of the model's worker count. *)
Theorem scaleUpModel_attempts_every_worker :
  forall (docker : list Event -> DockerCmd -> bool)
         (model : string) (count : Z) (st : State),
    scalingLock st = false ->
    exists st' evs,
      scaleUpModel docker model count st = Done tt st'
      /\ trace st' = evs ++ trace st
      /\ length evs = Z.to_nat count
      /\ startCalls model evs = evs
      /\ intAt (currentWorkers st') model
         = Nat.iter (length (List.filter succeeded evs))
             (fun c => GoInt.add c 1) (intAt (currentWorkers st) model).
Proof.
  intros docker model count st Hl.
  destruct (scaleUpLoop_runs docker model (Z.to_nat count) st Hl)
    as (st' & evs & Hrun & Htr & Hlen & Hall & _ & _ & Hcw & _).
  exists st', evs. repeat split; try done.
  unfold startCalls. clear -Hall.
  induction Hall as [|ev evs Hev _ IH]; [done|].
  simpl. rewrite Hev. by rewrite IH.
Qed.

Lemma scaleUpModel_attempts_every_worker_witness :
  exists st' evs,
    scaleUpModel dockerFlaky "llama" 3 initialState = Done tt st'
    /\ trace st' = evs ++ []
    /\ length evs = 3%nat.
Proof.
  destruct (scaleUpModel_attempts_every_worker dockerFlaky "llama" 3 initialState)
    as (st' & evs & Hrun & Htr & Hlen & _).
  - reflexivity.
  - exists st', evs. split; [exact Hrun|]. split; [exact Htr|exact Hlen].
Defined.

(** C4. In every state the registry addresses at most one worker per model:
    [getModelPorts] returns at most one port. Registering a worker leaves
    the port just stored as the model's only port, and a scale-up that
    returns has raised the model's count by the number of its successful
    starts while [getModelPorts] still returns at most one port. *)
Theorem getModelPorts_at_most_one :
  forall (docker : list Event -> DockerCmd -> bool) (st : State) (model : string),
    (length (getModelPorts model st) <= 1)%nat
    /\ (forall port st',
          startOllamaContainer docker model port st = Done true st' ->
          getModelPorts model st' = [port])
    /\ (forall count st',
          scaleUpModel docker model count st = Done tt st' ->
          (length (getModelPorts model st') <= 1)%nat
          /\ exists started : nat,
               (started <= Z.to_nat count)%nat
               /\ intAt (currentWorkers st') model
                  = Nat.iter started (fun c => GoInt.add c 1)
                      (intAt (currentWorkers st) model)).
Proof.
  intros docker st model.
  assert (Hone : forall s, (length (getModelPorts model s) <= 1)%nat).
  { intros s. rewrite getModelPorts_lookup.
    destruct (activeModels s !! model); simpl; lia. }
  split; [apply Hone|]. split.
  - intros port st'. unfold startOllamaContainer, bind, dockerExec.
    destruct (docker (trace st) (DockerRun model port)); simpl; [|discriminate].
    unfold modify, ret. intros [= <-].
    rewrite getModelPorts_lookup. simpl. by rewrite lookup_insert_eq.
  - intros count st' Hrun. split; [apply Hone|].
    destruct (scalingLock st) eqn:Hl.
    + destruct (Z.lt_ge_cases 0 count) as [Hc|Hc].
      * rewrite scaleUpModel_locked in Hrun by done. discriminate.
      * rewrite scaleUpModel_none in Hrun by lia. injection Hrun as <-.
        exists 0%nat. split; [lia|reflexivity].
    + destruct (scaleUpLoop_runs docker model (Z.to_nat count) st Hl)
        as (st2 & evs & Hrun2 & _ & Hlen & _ & _ & _ & Hcw & _).
      unfold scaleUpModel in Hrun. rewrite Hrun2 in Hrun. injection Hrun as <-.
      exists (length (List.filter succeeded evs)). split; [|exact Hcw].
      rewrite <- Hlen. apply List.filter_length_le.
Qed.

Lemma getModelPorts_at_most_one_witness :
  exists st',
    startOllamaContainer dockerOk "llama" "11500" oneModel = Done true st'
    /\ getModelPorts "llama" oneModel = ["11434"]
    /\ getModelPorts "llama" st' = ["11500"].
Proof.
  eexists. split; [reflexivity|]. split; [vm_compute; reflexivity|].
  refine (proj1 (proj2 (getModelPorts_at_most_one dockerOk oneModel "llama"))
            "11500" _ _).
  reflexivity.
Defined.

(** ** Reading the metrics *)

Section Metrics.

Variable ParseFloat : string -> Float64.t.

Lemma contains_trimLeft c s :
  isSpace c = false -> contains c (trimLeft s) = contains c s.
Proof.
  intros Hc. induction s as [|c' s IH]; [reflexivity|]. simpl.
  destruct (isSpace c') eqn:Hs; [|reflexivity].
  rewrite IH. destruct (Ascii.eqb_spec c' c) as [->|]; [congruence|reflexivity].
Qed.

Lemma contains_trimRight c s :
  isSpace c = false -> contains c (trimRight s) = contains c s.
Proof.
  intros Hc. induction s as [|c' s IH]; [reflexivity|]. simpl.
  destruct (trimRight s) as [|c'' r] eqn:Hr.
  - simpl in IH. rewrite <- IH.
    destruct (isSpace c') eqn:Hs; simpl.
    + destruct (Ascii.eqb_spec c' c) as [->|]; [congruence|reflexivity].
    + reflexivity.
  - rewrite <- IH. reflexivity.
Qed.

Lemma contains_TrimSpace c s :
  isSpace c = false -> contains c (TrimSpace s) = contains c s.
Proof.
  intros Hc. unfold TrimSpace.
  by rewrite contains_trimRight, contains_trimLeft.
Qed.

Lemma Split_nonempty s sep : exists piece pieces, Split s sep = piece :: pieces.
Proof.
  induction s as [|c s (piece & pieces & IH)]; simpl; [eauto|].
  destruct (Ascii.eqb c sep); [eauto|]. rewrite IH. eauto.
Qed.

(** Without a separator there is one piece, with one there are two or more. *)
Lemma Split_without s sep : contains sep s = false -> Split s sep = [s].
Proof.
  induction s as [|c s IH]; [reflexivity|]. simpl.
  destruct (Ascii.eqb c sep); simpl; [discriminate|].
  intros H. by rewrite IH.
Qed.

Lemma Split_with s sep :
  contains sep s = true ->
  exists p0 p1 rest, Split s sep = p0 :: p1 :: rest.
Proof.
  induction s as [|c s IH]; [discriminate|]. simpl.
  destruct (Ascii.eqb c sep); simpl.
  - intros _. destruct (Split_nonempty s sep) as (p & ps & ->). eauto.
  - intros H. destruct (IH H) as (p0 & p1 & rest & ->). eauto.
Qed.

(** An output without a comma makes [parts[1]] panic. *)
Lemma getSystemMetrics_without_comma out :
  contains "," out = false ->
  getSystemMetrics ParseFloat (ProbeOutput out) = Panic.
Proof.
  intros H. unfold getSystemMetrics.
  rewrite Split_without by (by rewrite contains_TrimSpace).
  reflexivity.
Qed.

(** A failed command gives the zero value, an output with a comma gives the
    two parsed fields. *)
Lemma getSystemMetrics_returns probe :
  match probe with
  | ProbeError => True
  | ProbeOutput out => contains "," out = true
  end ->
  exists metrics, getSystemMetrics ParseFloat probe = Value metrics
                  /\ (probe = ProbeError -> metrics = zeroMetrics).
Proof.
  destruct probe as [|out]; intros H.
  - exists zeroMetrics. auto.
  - unfold getSystemMetrics.
    destruct (Split_with (TrimSpace out) ",") as (p0 & p1 & rest & ->).
    { by rewrite contains_TrimSpace. }
    simpl. eexists. split; [reflexivity|discriminate].
Qed.

End Metrics.

(** C9. The command succeeds and prints nothing, or a line without a comma:
    [getSystemMetrics] panics on [parts[1]] instead of returning a value. *)
Theorem getSystemMetrics_panics_on_short_output :
  forall ParseFloat : string -> Float64.t,
    getSystemMetrics ParseFloat (ProbeOutput "") = Panic
    /\ getSystemMetrics ParseFloat (ProbeOutput "No devices were found") = Panic
    /\ getSystemMetrics ParseFloat ProbeError = Value zeroMetrics.
Proof. intros ParseFloat. repeat split. Qed.

(** ** The scaling cycle *)

Section Cycle.

Variable docker : list Event -> DockerCmd -> bool.
Variable ParseFloat : string -> Float64.t.
Implicit Types (st : State) (model : string) (metrics : ScalingMetrics).

(** The state after the body of the loop when no start or stop was sent. *)
Local Abbreviation resetCount model st :=
  (set_requestCounts (<[model := 0]> (requestCounts st)) st).

Lemma scaleOne_no_scale_up metrics model st :
  calculateDesiredWorkers model (intAt (requestCounts st) model) metrics
    <= intAt (currentWorkers st) model ->
  scaleOne docker metrics model st = Done tt (resetCount model st).
Proof.
  intros Hle. unfold scaleOne, bind at 1, get.
  destruct (Z.ltb_spec (intAt (currentWorkers st) model)
              (calculateDesiredWorkers model (intAt (requestCounts st) model) metrics));
    [lia|].
  destruct (Z.ltb_spec
              (calculateDesiredWorkers model (intAt (requestCounts st) model) metrics)
              (intAt (currentWorkers st) model)).
  - unfold bind. by rewrite scaleDownModel_unchanged.
  - reflexivity.
Qed.

(** In the cycle the mutex is held: a model that needs one more worker or
    more stops the cycle for good, before any start is sent. *)
Lemma scaleOne_scale_up_blocks metrics model st :
  scalingLock st = true ->
  0 < GoInt.sub
        (calculateDesiredWorkers model (intAt (requestCounts st) model) metrics)
        (intAt (currentWorkers st) model) ->
  intAt (currentWorkers st) model
    < calculateDesiredWorkers model (intAt (requestCounts st) model) metrics ->
  scaleOne docker metrics model st = Blocked st.
Proof.
  intros Hl Hpos Hlt. unfold scaleOne, bind at 1, get.
  destruct (Z.ltb_spec (intAt (currentWorkers st) model)
              (calculateDesiredWorkers model (intAt (requestCounts st) model) metrics));
    [|lia].
  unfold bind. by rewrite scaleUpModel_locked.
Qed.

Lemma scaleOne_locked metrics model st :
  scalingLock st = true ->
  scaleOne docker metrics model st = Done tt (resetCount model st)
  \/ scaleOne docker metrics model st = Blocked st.
Proof.
  intros Hl.
  destruct (Z.le_gt_cases
              (calculateDesiredWorkers model (intAt (requestCounts st) model) metrics)
              (intAt (currentWorkers st) model)) as [Hle|Hgt].
  - left. by apply scaleOne_no_scale_up.
  - destruct (Z.lt_ge_cases 0
                (GoInt.sub
                   (calculateDesiredWorkers model (intAt (requestCounts st) model) metrics)
                   (intAt (currentWorkers st) model))) as [Hpos|Hneg].
    + right. by apply scaleOne_scale_up_blocks.
    + left. unfold scaleOne, bind at 1, get.
      destruct (Z.ltb_spec (intAt (currentWorkers st) model)
                  (calculateDesiredWorkers model (intAt (requestCounts st) model) metrics));
        [|lia].
      unfold bind. by rewrite scaleUpModel_none by lia.
Qed.

(** However the loop ends, it has changed nothing but request counters, and
    only those of the models it went through. *)
Lemma scaleAll_locked metrics (models : list string) st :
  scalingLock st = true ->
  exists st',
    (scaleAll docker metrics models st = Done tt st'
     \/ scaleAll docker metrics models st = Blocked st')
    /\ scalingLock st' = true
    /\ currentWorkers st' = currentWorkers st
    /\ activeModels st' = activeModels st
    /\ nextPort st' = nextPort st
    /\ trace st' = trace st
    /\ (forall m, m ∉ models -> requestCounts st' !! m = requestCounts st !! m).
Proof.
  revert st. induction models as [|model rest IH]; intros st Hl.
  - exists st. simpl. unfold ret. auto 10.
  - cbn [scaleAll]. unfold bind.
    destruct (scaleOne_locked metrics model st Hl) as [-> | ->].
    + destruct (IH (resetCount model st) Hl)
        as (st' & Hrun & Hlk & Hcw & Ham & Hnp & Htr & Hrc).
      exists st'. split; [exact Hrun|]. split; [done|].
      split; [done|]. split; [done|]. split; [done|]. split; [done|].
      intros m Hm. apply not_elem_of_cons in Hm as [Hne Hm].
      rewrite Hrc by done. simpl. by rewrite lookup_insert_ne.
    + exists st. auto 10.
Qed.

(** When no model of the list needs a scale-up, the loop goes through the
    whole list and every counter on it is reset. *)
Lemma scaleAll_done metrics (models : list string) st :
  NoDup models ->
  (forall m, m ∈ models ->
     calculateDesiredWorkers m (intAt (requestCounts st) m) metrics
       <= intAt (currentWorkers st) m) ->
  exists st',
    scaleAll docker metrics models st = Done tt st'
    /\ scalingLock st' = scalingLock st
    /\ currentWorkers st' = currentWorkers st
    /\ activeModels st' = activeModels st
    /\ nextPort st' = nextPort st
    /\ trace st' = trace st
    /\ (forall m, m ∈ models -> requestCounts st' !! m = Some 0)
    /\ (forall m, m ∉ models -> requestCounts st' !! m = requestCounts st !! m).
Proof.
  revert st. induction models as [|model rest IH]; intros st Hnd Hle.
  - exists st. simpl. unfold ret. repeat split; auto. intros m Hm. inversion Hm.
  - apply NoDup_cons in Hnd as [Hfresh Hnd].
    cbn [scaleAll]. unfold bind.
    rewrite scaleOne_no_scale_up by (apply Hle; left).
    destruct (IH (resetCount model st) Hnd)
      as (st' & Hrun & Hlk & Hcw & Ham & Hnp & Htr & Hin & Hout).
    { intros m Hm. simpl. unfold intAt at 1.
      rewrite lookup_insert_ne by (intros ->; done).
      apply Hle. by right. }
    exists st'. split; [exact Hrun|]. split; [done|].
    split; [done|]. split; [done|]. split; [done|]. split; [done|]. split.
    + intros m Hm. apply elem_of_cons in Hm as [->|Hm]; [|by apply Hin].
      rewrite Hout by done. simpl. by rewrite lookup_insert_eq.
    + intros m Hm. apply not_elem_of_cons in Hm as [Hne Hm].
      rewrite Hout by done. simpl. by rewrite lookup_insert_ne.
Qed.

(** A model that needs a scale-up stops the loop. *)
Lemma scaleAll_blocks metrics (models : list string) model st :
  NoDup models ->
  scalingLock st = true ->
  model ∈ models ->
  0 < GoInt.sub
        (calculateDesiredWorkers model (intAt (requestCounts st) model) metrics)
        (intAt (currentWorkers st) model) ->
  intAt (currentWorkers st) model
    < calculateDesiredWorkers model (intAt (requestCounts st) model) metrics ->
  exists st', scaleAll docker metrics models st = Blocked st'.
Proof.
  revert st. induction models as [|m rest IH]; intros st Hnd Hl Hin Hpos Hlt.
  - inversion Hin.
  - apply NoDup_cons in Hnd as [Hfresh Hnd].
    cbn [scaleAll]. unfold bind.
    destruct (scaleOne_locked metrics m st Hl) as [Hd | ->]; [|eauto].
    apply elem_of_cons in Hin as [->|Hin].
    + rewrite scaleOne_scale_up_blocks in Hd by done. discriminate.
    + assert (m <> model) by (intros ->; done).
      assert (Hrc : intAt (requestCounts (resetCount m st)) model
                    = intAt (requestCounts st) model).
      { simpl. unfold intAt. by rewrite lookup_insert_ne. }
      rewrite Hd. apply IH; try done; rewrite Hrc; exact Hpos || exact Hlt.
Qed.

Lemma TrackRequest_unlocked model st :
  scalingLock st = false ->
  TrackRequest model st
  = Done tt (set_requestCounts
               (<[model := GoInt.add (intAt (requestCounts st) model) 1]>
                  (requestCounts st)) st).
Proof.
  intros Hl. unfold TrackRequest, withLock. rewrite Hl. simpl.
  destruct st; simpl in *; subst; reflexivity.
Qed.

End Cycle.

(** A cycle in which an active model needs a scale-up never returns: it
    waits on the mutex it holds, with the mutex still held. *)
Lemma scaleModelsBasedOnDemand_blocks
    (docker : list Event -> DockerCmd -> bool) (ParseFloat : string -> Float64.t)
    (probe : ProbeResult) (metrics : ScalingMetrics) (st : State) (model : string) :
  scalingLock st = false ->
  getSystemMetrics ParseFloat probe = Value metrics ->
  is_Some (activeModels st !! model) ->
  0 < GoInt.sub
        (calculateDesiredWorkers model (intAt (requestCounts st) model) metrics)
        (intAt (currentWorkers st) model) ->
  intAt (currentWorkers st) model
    < calculateDesiredWorkers model (intAt (requestCounts st) model) metrics ->
  exists st',
    scaleModelsBasedOnDemand docker ParseFloat probe st = Blocked st'
    /\ scalingLock st' = true
    /\ trace st' = trace st.
Proof.
  intros Hl Hm Hact Hpos Hlt.
  unfold scaleModelsBasedOnDemand, withLock. rewrite Hl, Hm.
  destruct (scaleAll_blocks docker metrics
              (getActiveModels (set_scalingLock true st)) model
              (set_scalingLock true st)) as [st' Hrun]; try done.
  - apply getActiveModels_NoDup.
  - by apply elem_of_getActiveModels.
  - destruct (scaleAll_locked docker metrics
                (getActiveModels (set_scalingLock true st))
                (set_scalingLock true st) eq_refl)
      as (st2 & [Hrun2|Hrun2] & Hlk & _ & _ & _ & Htr & _);
      rewrite Hrun in Hrun2; [discriminate|].
    injection Hrun2 as <-. rewrite Hrun. eauto.
Qed.

(** ** One cycle among concurrent requests *)

Section Drain.

Variable docker : list Event -> DockerCmd -> bool.
Variable ParseFloat : string -> Float64.t.
Variable probe : ProbeResult.
Variable init : string -> Z.
Variable workers : gmap string Z.

(** The cycle never wants a scale-up: the VRAM cap is at most the worker
    count of every model. *)
Hypothesis cap_below_workers :
  forall metrics, getSystemMetrics ParseFloat probe = Value metrics ->
                  forall m, maxByVRAM metrics <= intAt workers m.









End Drain.


(** Once the cycle has ended, its turns change nothing. *)
Lemma cycle_ended_stays
    (docker : list Event -> DockerCmd -> bool) (ParseFloat : string -> Float64.t)
    (probe : ProbeResult) (n : nat) (pc : CyclePc)
    (ts : Threads) (calls : list string) (st : State) :
  match pc with
  | CycleReturned _ | CycleBlocked _ | CyclePanicked => True
  | CycleLock | CycleLoop _ _ _ => False
  end ->
  shared (runSystem docker ParseFloat probe (repeat CycleTurn n)
            {| cyclePc := pc; threads := ts; shared := st; counted := calls |})
  = st.
Proof.
  intros Hpc. induction n as [|n IH]; [reflexivity|].
  cbn [repeat runSystem]. by destruct pc.
Qed.

(** The cycle run alone through its steps ends as the function
    [scaleModelsBasedOnDemand] does, and in the same state. *)
Lemma scaleAll_steps_alone
    (docker : list Event -> DockerCmd -> bool) (ParseFloat : string -> Float64.t)
    (probe : ProbeResult) (metrics : ScalingMetrics) (models : list string)
    (reads : list (string * Z)) (ts : Threads) (calls : list string) (st : State) :
  shared (runSystem docker ParseFloat probe (repeat CycleTurn (S (length models)))
            {| cyclePc := CycleLoop metrics models reads; threads := ts;
               shared := st; counted := calls |})
  = match scaleAll docker metrics models st with
    | Done _ st' => set_scalingLock false st'
    | Blocked st' => st'
    | Panicked st' => set_scalingLock false st'
    end.
Proof.
  revert reads st. induction models as [|model rest IH]; intros reads st.
  - reflexivity.
  - change (repeat CycleTurn (S (length (model :: rest))))
      with (CycleTurn :: repeat CycleTurn (S (length rest))).
    cbn [runSystem]. cbn [stepSystem cyclePc shared threads counted cycleStep
                          scaleAll]. unfold bind.
    destruct (scaleOne docker metrics model st) as [[] st'|st'|st'].
    + apply IH.
    + by apply cycle_ended_stays.
    + by apply cycle_ended_stays.
Qed.

Lemma cycle_steps_alone
    (docker : list Event -> DockerCmd -> bool) (ParseFloat : string -> Float64.t)
    (probe : ProbeResult) (ts : Threads) (calls : list string) (st : State) :
  scalingLock st = false ->
  shared (runSystem docker ParseFloat probe
            (repeat CycleTurn (S (S (length (getActiveModels st)))))
            {| cyclePc := CycleLock; threads := ts; shared := st;
               counted := calls |})
  = finalState (scaleModelsBasedOnDemand docker ParseFloat probe st).
Proof.
  intros Hl.
  change (repeat CycleTurn (S (S (length (getActiveModels st)))))
    with (CycleTurn :: repeat CycleTurn (S (length (getActiveModels st)))).
  cbn [runSystem]. cbn [stepSystem cyclePc shared threads counted cycleStep].
  rewrite Hl.
  unfold scaleModelsBasedOnDemand, withLock. rewrite Hl.
  destruct (getSystemMetrics ParseFloat probe) as [metrics|].
  - change (getActiveModels st) with (getActiveModels (set_scalingLock true st)).
    rewrite (scaleAll_steps_alone docker ParseFloat probe metrics).
    by destruct (scaleAll docker metrics _ _) as [[] s|s|s].
  - by apply cycle_ended_stays.
Qed.



(** ** Ports *)

(** C2. The routing path and the scaling path do not share their port
    allocator. (1) After a request has registered "a" on port 11434, the
    first port of [findAvailablePort] is 11434 as well. (2) Two requests
    for "a" and "b" that overlap both read a count of 0 and both workers are
    registered on port 11434. (3) When a start fails, the next request is
    given the same port again: successive allocations do not increase. *)
Theorem port_allocators_collide :
  (exists st1 st2,
     route dockerOk "a" initialState = Done (Some "11434") st1
     /\ findAvailablePort st1 = Done "11434" st2)
  /\ (exists ts st,
        runSchedule dockerOk alternate
          [("a", AtTrack); ("b", AtTrack)] initialState = (ts, st)
        /\ ts = [("a", Returned (Some "11434")); ("b", Returned (Some "11434"))]
        /\ map_to_list (activeModels st) = [("a", "11434"); ("b", "11434")])
  /\ (exists st1 st2,
        route dockerFlaky "a" initialState = Done None st1
        /\ route dockerFlaky "b" st1 = Done (Some "11434") st2
        /\ trace st2
           = [ {| cmd := DockerRun "b" "11434"; succeeded := true |};
               {| cmd := DockerRun "a" "11434"; succeeded := false |} ]).
Proof.
  split; [|split].
  - eexists _, _. split; [vm_compute; reflexivity|].
    vm_compute; reflexivity.
  - eexists _, _. split; [vm_compute; reflexivity|].
    split; vm_compute; reflexivity.
  - eexists _, _. split; [vm_compute; reflexivity|].
    split; [vm_compute; reflexivity|].
    vm_compute; reflexivity.
Qed.

(** Taken alone, [findAvailablePort] hands out increasing ports: two calls
    in a row, with the mutex free, return [p] and [p + 1]. *)
Lemma findAvailablePort_increases (st : State) :
  scalingLock st = false ->
  GoInt.min_int <= nextPort st < GoInt.max_int ->
  exists st1 st2,
    findAvailablePort st = Done (pretty (nextPort st)) st1
    /\ findAvailablePort st1 = Done (pretty (nextPort st + 1)) st2
    /\ pretty (nextPort st) <> (pretty (nextPort st + 1) : string)
    /\ nextPort st2 = GoInt.wrap (nextPort st + 2).
Proof.
  intros Hl Hr.
  assert (Hadd : GoInt.add (nextPort st) 1 = nextPort st + 1).
  { unfold GoInt.add. apply wrap_id. unfold GoInt.in_range. lia. }
  eexists _, _.
  rewrite findAvailablePort_unlocked by done. split; [reflexivity|].
  rewrite findAvailablePort_unlocked by done.
  cbn [nextPort set_nextPort]. rewrite Hadd.
  split; [reflexivity|]. split.
  - intros H. apply (inj pretty) in H. lia.
  - cbn [nextPort set_nextPort]. unfold GoInt.add. f_equal. lia.
Qed.

(** ** Concurrent requests for one model *)

Section Requests.

Variable docker : list Event -> DockerCmd -> bool.
Implicit Types (st : State) (model : string) (ts : Threads) (pc : RoutePc).

Lemma TrackRequest_trace model st :
  trace (finalState (TrackRequest model st)) = trace st.
Proof.
  unfold TrackRequest, withLock. by destruct (scalingLock st).
Qed.

(** One step of a request sends at most one start, and only if the request
    had not sent its start yet. *)
Lemma routeStep_starts model m pc st :
  (length (startCalls model (trace (routeStep docker m pc st).2))
   + Nat.b2n (mayStart model (m, (routeStep docker m pc st).1))
   <= length (startCalls model (trace st)) + Nat.b2n (mayStart model (m, pc)))%nat.
Proof.
  destruct pc as [| | |port|port|r]; unfold mayStart; cbn [fst snd routeStep].
  - pose proof (TrackRequest_trace m st) as Htr.
    destruct (TrackRequest m st) as [[] st'|st'|st']; cbn [fst snd finalState] in *;
      rewrite ?Htr; destruct (bool_decide (m = model)); cbn [andb Nat.b2n]; lia.
  - destruct (activeModels st !! m); cbn [fst snd];
      destruct (bool_decide (m = model)); cbn [andb Nat.b2n]; lia.
  - cbn [fst snd]. lia.
  - unfold dockerExec.
    destruct (docker (trace st) (DockerRun m port)); cbn [fst snd trace set_trace];
      unfold startCalls, isStartOf; cbn [List.filter cmd];
      destruct (bool_decide (m = model)); cbn [length andb Nat.b2n]; lia.
  - cbn [fst snd trace set_activeModels].
    destruct (bool_decide (m = model)); cbn [andb Nat.b2n]; lia.
  - cbn [fst snd]. lia.
Qed.

Lemma mayStart_insert model (i : nat) ts (old new : string * RoutePc) :
  ts !! i = Some old ->
  (length (List.filter (mayStart model) (<[i := new]> ts))
   + Nat.b2n (mayStart model old)
   = length (List.filter (mayStart model) ts) + Nat.b2n (mayStart model new))%nat.
Proof.
  revert i. induction ts as [|t ts IH]; intros [|i] Hi; try discriminate.
  - injection Hi as ->. simpl.
    destruct (mayStart model old), (mayStart model new); simpl; lia.
  - simpl in *. specialize (IH i Hi).
    destruct (mayStart model t); simpl; [f_equal|]; exact IH.
Qed.

Lemma stepThread_starts model (i : nat) ts st :
  (length (startCalls model (trace (stepThread docker i ts st).2))
   + length (List.filter (mayStart model) (stepThread docker i ts st).1)
   <= length (startCalls model (trace st))
      + length (List.filter (mayStart model) ts))%nat.
Proof.
  unfold stepThread. destruct (ts !! i) as [[m pc]|] eqn:Hi; [|simpl; lia].
  pose proof (routeStep_starts model m pc st) as Hstep.
  destruct (routeStep docker m pc st) as [pc' st'] eqn:Hrs. simpl in *.
  pose proof (mayStart_insert model i ts (m, pc) (m, pc') Hi). lia.
Qed.

(** Under any schedule, the starts sent for a model are at most as many as
    the requests for it that had not sent theirs. *)
Lemma runSchedule_starts model (schedule : list nat) ts st :
  (length (startCalls model (trace (runSchedule docker schedule ts st).2))
   <= length (startCalls model (trace st))
      + length (List.filter (mayStart model) ts))%nat.
Proof.
  revert ts st. induction schedule as [|i rest IH]; intros ts st.
  - simpl. lia.
  - simpl. pose proof (stepThread_starts model i ts st) as Hstep.
    destruct (stepThread docker i ts st) as [ts' st'] eqn:Hst. simpl in *.
    specialize (IH ts' st'). lia.
Qed.

(** A request that runs alone from [AtTrack] is the function [route]. *)
Lemma runSchedule_alone model st :
  scalingLock st = false ->
  match route docker model st with
  | Done r st' =>
      runSchedule docker [0; 0; 0; 0; 0]%nat [(model, AtTrack)] st
      = ([(model, Returned r)], st')
  | _ => False
  end.
Proof.
  intros Hl. unfold route, bind at 1.
  rewrite TrackRequest_unlocked by done.
  cbn [runSchedule]. unfold stepThread at 1. cbn [lookup list_lookup routeStep].
  rewrite TrackRequest_unlocked by done. cbn [insert list_insert].
  set (st1 := set_requestCounts _ st).
  unfold ensureModelRunning, bind at 1, get.
  unfold stepThread at 1. cbn [lookup list_lookup routeStep].
  destruct (activeModels st1 !! model) as [port|] eqn:Hact; cbn [insert list_insert].
  - unfold ret. reflexivity.
  - unfold stepThread at 1. cbn [lookup list_lookup routeStep insert list_insert].
    unfold stepThread at 1. cbn [lookup list_lookup routeStep].
    unfold startOllamaContainer, bind, dockerExec.
    destruct (docker (trace st1) _); reflexivity.
Qed.

End Requests.

(** C3. Two requests for the unregistered model "x" that take turns both
    find the registry empty before either has stored its entry: two starts
    are sent for "x", where the check and the provisioning were to be one
    atomic step with exactly one start. *)
Theorem concurrent_routes_start_twice :
  exists ts st,
    runSchedule dockerOk alternate [("x", AtTrack); ("x", AtTrack)] initialState
    = (ts, st)
    /\ ts = [("x", Returned (Some "11434")); ("x", Returned (Some "11434"))]
    /\ trace st
       = [ {| cmd := DockerRun "x" "11434"; succeeded := true |};
           {| cmd := DockerRun "x" "11434"; succeeded := true |} ]
    /\ getModelPorts "x" st = ["11434"].
Proof.
  eexists _, _. split; [vm_compute; reflexivity|].
  split; [vm_compute; reflexivity|].
  split; vm_compute; reflexivity.
Qed.

(** X20. What does hold on the routing path. Two requests for an unregistered
    model that run one after the other send exactly one start (when it
    succeeds) and register one worker, the second request finding the first
    one's entry. Under any schedule each request sends at most one start,
    and the registry holds at most one port for the model. *)
Theorem route_starts_once_when_sequential :
  forall (docker : list Event -> DockerCmd -> bool) (model : string) (st : State),
    scalingLock st = false ->
    activeModels st !! model = None ->
    docker (trace st)
      (DockerRun model (pretty (GoInt.add basePort (countActiveModels st)))) = true ->
    let port := pretty (GoInt.add basePort (countActiveModels st)) in
    (exists st1 st2,
       route docker model st = Done (Some port) st1
       /\ route docker model st1 = Done (Some port) st2
       /\ trace st2 = {| cmd := DockerRun model port; succeeded := true |} :: trace st
       /\ getModelPorts model st2 = [port])
    /\ (forall (schedule : list nat) (ts : Threads),
          (length (startCalls model (trace (runSchedule docker schedule ts st).2))
           <= length (startCalls model (trace st)) + length ts)%nat
          /\ (length (getModelPorts model (runSchedule docker schedule ts st).2) <= 1)%nat).
Proof.
  intros docker model st Hl Hnone Hok port. split.
  - unfold route, bind at 1. rewrite TrackRequest_unlocked by done.
    set (st0 := set_requestCounts _ st).
    unfold ensureModelRunning at 1, bind at 1, get.
    change (activeModels st0) with (activeModels st). rewrite Hnone.
    unfold bind at 1, startOllamaContainer, bind at 1, dockerExec.
    change (trace st0) with (trace st).
    change (countActiveModels st0) with (countActiveModels st).
    fold port. fold port in Hok. rewrite Hok. simpl.
    unfold bind, modify, ret.
    eexists _, _. split; [reflexivity|].
    rewrite TrackRequest_unlocked by done.
    unfold ensureModelRunning, bind, get. simpl.
    rewrite lookup_insert_eq. unfold ret.
    split; [reflexivity|]. split; [reflexivity|].
    rewrite getModelPorts_lookup. simpl. by rewrite lookup_insert_eq.
  - intros schedule ts. split.
    + pose proof (runSchedule_starts docker model schedule ts st).
      pose proof (List.filter_length_le (mayStart model) ts). lia.
    + rewrite getModelPorts_lookup.
      destruct (activeModels (runSchedule docker schedule ts st).2 !! model);
        simpl; clear; lia.
Qed.

Lemma route_starts_once_when_sequential_witness :
  exists st1 st2,
    route dockerOk "x" initialState = Done (Some "11434") st1
    /\ route dockerOk "x" st1 = Done (Some "11434") st2
    /\ trace st2 = [ {| cmd := DockerRun "x" "11434"; succeeded := true |} ].
Proof.
  destruct (route_starts_once_when_sequential dockerOk "x" initialState)
    as [(st1 & st2 & H1 & H2 & Htr & _) _].
  - reflexivity.
  - reflexivity.
  - reflexivity.
  - exists st1, st2. split; [exact H1|]. split; [exact H2|exact Htr].
Defined.

(** ** Further properties of the registry *)

Section RegistryViews.

Implicit Types (st : State) (model port : string).

Lemma count_entries (l : list (string * string)) (c : Z) :
  0 <= c -> c + Z.of_nat (length l) <= GoInt.max_int ->
  foldl (fun count (_ : string * string) => GoInt.add count 1) c l
  = c + Z.of_nat (length l).
Proof.
  revert c. induction l as [|kv l IH]; intros c Hc Hb; simpl in *; [lia|].
  assert (Hadd : GoInt.add c 1 = c + 1).
  { unfold GoInt.add. apply wrap_id.
    unfold GoInt.in_range, GoInt.min_int, GoInt.max_int in *. lia. }
  rewrite Hadd, IH; lia.
Qed.

Lemma countActiveModels_size st :
  Z.of_nat (size (activeModels st)) <= GoInt.max_int ->
  countActiveModels st = Z.of_nat (size (activeModels st)).
Proof.
  intros Hb. unfold countActiveModels, Range.
  rewrite <- length_map_to_list in *.
  rewrite (count_entries (map_to_list (activeModels st)) 0); lia.
Qed.

Lemma getActiveModels_length st :
  length (getActiveModels st) = size (activeModels st).
Proof.
  rewrite getActiveModels_keys, length_fmap. apply length_map_to_list.
Qed.

End RegistryViews.

(** X1. [getModelPorts] returns exactly the port stored for the model, as a
    list of one element, and the empty list for a model that is not
    registered; the entries of the other models never show in it. *)
Theorem getModelPorts_registered_port :
  forall (st : State) (model : string),
    (forall port, activeModels st !! model = Some port ->
                  getModelPorts model st = [port])
    /\ (activeModels st !! model = None -> getModelPorts model st = [])
    /\ (forall port, port ∈ getModelPorts model st ->
                     activeModels st !! model = Some port).
Proof.
  intros st model. rewrite getModelPorts_lookup.
  destruct (activeModels st !! model) as [p|]; simpl.
  - split; [by intros port [= ->]|]. split; [done|].
    intros port Hin. apply list_elem_of_singleton in Hin. by subst.
  - split; [done|]. split; [done|]. intros port Hin. inversion Hin.
Qed.

Lemma getModelPorts_registered_port_witness :
  getModelPorts "llama" oneModel = ["11434"]
  /\ getModelPorts "mistral" oneModel = [].
Proof.
  split.
  - refine (proj1 (getModelPorts_registered_port oneModel "llama") "11434" _).
    reflexivity.
  - refine (proj1 (proj2 (getModelPorts_registered_port oneModel "mistral")) _).
    reflexivity.
Defined.

(** X2. [getActiveModels] lists every registered model once and nothing
    else, and the count that [listModelsHandler] reports beside the list is
    the number of registered models. *)
Theorem getActiveModels_lists_registry :
  forall st : State,
    NoDup (getActiveModels st)
    /\ (forall model, model ∈ getActiveModels st
                      <-> is_Some (activeModels st !! model))
    /\ (listModelsHandler st).1 = getActiveModels st
    /\ (listModelsHandler st).2 = Z.of_nat (size (activeModels st)).
Proof.
  intros st. split; [apply getActiveModels_NoDup|].
  split; [intros model; apply elem_of_getActiveModels|].
  split; [reflexivity|].
  unfold listModelsHandler. simpl. by rewrite getActiveModels_length.
Qed.

(** X3. [countActiveModels] is the number of entries of the registry (as
    long as that number fits an [int]), so it agrees with the length of
    [getActiveModels]. *)
Theorem countActiveModels_counts_registry :
  forall st : State,
    Z.of_nat (size (activeModels st)) <= GoInt.max_int ->
    countActiveModels st = Z.of_nat (size (activeModels st))
    /\ countActiveModels st = Z.of_nat (length (getActiveModels st)).
Proof.
  intros st Hb. rewrite getActiveModels_length.
  split; by apply countActiveModels_size.
Qed.

Lemma countActiveModels_counts_registry_witness :
  countActiveModels oneModel = 1 /\ countActiveModels initialState = 0.
Proof.
  split.
  - refine (proj1 (countActiveModels_counts_registry oneModel _)).
    unfold GoInt.max_int. vm_compute. discriminate.
  - refine (proj1 (countActiveModels_counts_registry initialState _)).
    unfold GoInt.max_int. vm_compute. discriminate.
Defined.

(** ** Further properties of the scaling decision *)

Section DecisionBounds.

Implicit Types (requests : Z) (metrics : ScalingMetrics).

Lemma specBase_mono requests1 requests2 metrics :
  0 <= requests1 <= requests2 ->
  Spec.base requests1 metrics <= Spec.base requests2 metrics.
Proof.
  intros H. unfold Spec.base.
  destruct (Z.ltb_spec 10 requests1), (Z.ltb_spec 10 requests2); try lia.
  - assert (requests1 / 5 <= requests2 / 5) by (apply Z.div_le_mono; lia). lia.
  - assert (0 <= requests2 / 5) by (apply Z.div_pos; lia). lia.
Qed.

End DecisionBounds.

(** X4. More demand never lowers the decision: for request counts
    0 <= r1 <= r2 of type [int] and the same metrics,
    [calculateDesiredWorkers] of r1 is at most that of r2. *)
Theorem calculateDesiredWorkers_monotone :
  forall (model : string) (requests1 requests2 : Z) (metrics : ScalingMetrics),
    0 <= requests1 <= requests2 ->
    requests2 <= GoInt.max_int ->
    calculateDesiredWorkers model requests1 metrics
    <= calculateDesiredWorkers model requests2 metrics.
Proof.
  intros model r1 r2 metrics H12 Hmax.
  rewrite !calculateDesiredWorkers_min.
  rewrite !desiredBase_spec by lia.
  pose proof (specBase_mono r1 r2 metrics H12). lia.
Qed.

Lemma calculateDesiredWorkers_monotone_witness :
  calculateDesiredWorkers "llama" 10 (metricsOf 0 20000)
  <= calculateDesiredWorkers "llama" 11 (metricsOf 0 20000)
  /\ calculateDesiredWorkers "llama" 10 (metricsOf 0 20000) = 1
  /\ calculateDesiredWorkers "llama" 11 (metricsOf 0 20000) = 3.
Proof.
  split; [|split; reflexivity].
  refine (calculateDesiredWorkers_monotone "llama" 10 11 (metricsOf 0 20000) _ _).
  - lia.
  - unfold GoInt.max_int. lia.
Defined.

(** X5. The decision is one worker or more exactly when the VRAM cap is:
    whatever the demand and the GPU load, [calculateDesiredWorkers] is
    below 1 if and only if [maxByVRAM] is. *)
Theorem calculateDesiredWorkers_floor_iff_cap :
  forall (model : string) (requests : Z) (metrics : ScalingMetrics),
    GoInt.in_range requests ->
    (1 <= calculateDesiredWorkers model requests metrics
     <-> 1 <= maxByVRAM metrics).
Proof.
  intros model requests metrics Hr.
  rewrite calculateDesiredWorkers_min.
  pose proof (desiredBase_pos requests metrics Hr). lia.
Qed.

Lemma calculateDesiredWorkers_floor_iff_cap_witness :
  (1 <= calculateDesiredWorkers "llama" 200 (metricsOf 95 4000)
   <-> 1 <= maxByVRAM (metricsOf 95 4000))
  /\ maxByVRAM (metricsOf 95 4000) = 0.
Proof.
  split; [|reflexivity].
  refine (calculateDesiredWorkers_floor_iff_cap "llama" 200 (metricsOf 95 4000) _).
  unfold GoInt.in_range, GoInt.min_int, GoInt.max_int. lia.
Defined.

(** X6. With the zero reading that a failed probe gives, the decision is 0
    workers for every request count. *)
Theorem calculateDesiredWorkers_zero_metrics :
  forall (model : string) (requests : Z),
    GoInt.in_range requests ->
    calculateDesiredWorkers model requests zeroMetrics = 0.
Proof.
  intros model requests Hr. rewrite calculateDesiredWorkers_min.
  pose proof (desiredBase_pos requests zeroMetrics Hr).
  change (maxByVRAM zeroMetrics) with 0. lia.
Qed.

Lemma calculateDesiredWorkers_zero_metrics_witness :
  calculateDesiredWorkers "llama" 1000 zeroMetrics = 0.
Proof.
  refine (calculateDesiredWorkers_zero_metrics "llama" 1000 _).
  unfold GoInt.in_range, GoInt.min_int, GoInt.max_int. lia.
Defined.

(** ** Further properties of the scaling cycle and of the manager *)

Section CycleFrame.

Variable docker : list Event -> DockerCmd -> bool.
Variable ParseFloat : string -> Float64.t.
Implicit Types (st : State) (probe : ProbeResult).

(** The fields that a cycle leaves alone. *)
Lemma cycle_frame probe st :
  let st' := finalState (scaleModelsBasedOnDemand docker ParseFloat probe st) in
  activeModels st' = activeModels st
  /\ currentWorkers st' = currentWorkers st
  /\ nextPort st' = nextPort st
  /\ trace st' = trace st
  /\ (forall m, activeModels st !! m = None ->
                requestCounts st' !! m = requestCounts st !! m).
Proof.
  unfold scaleModelsBasedOnDemand, withLock.
  destruct (scalingLock st) eqn:Hl; [simpl; auto|].
  destruct (getSystemMetrics ParseFloat probe) as [metrics|]; [|simpl; auto].
  destruct (scaleAll_locked docker metrics
              (getActiveModels (set_scalingLock true st))
              (set_scalingLock true st) eq_refl)
    as (st' & Hrun & _ & Hcw & Ham & Hnp & Htr & Hrc).
  assert (Hout : forall m, activeModels st !! m = None ->
                           requestCounts st' !! m = requestCounts st !! m).
  { intros m Hm. apply Hrc. rewrite elem_of_getActiveModels. simpl.
    rewrite Hm. by intros [? ?]. }
  destruct Hrun as [-> | ->]; simpl; auto.
Qed.

(** A cycle that returns has released the mutex. *)
Lemma cycle_done_unlocked probe st st' :
  scaleModelsBasedOnDemand docker ParseFloat probe st = Done tt st' ->
  scalingLock st' = false.
Proof.
  unfold scaleModelsBasedOnDemand, withLock.
  destruct (scalingLock st); [discriminate|].
  destruct (getSystemMetrics ParseFloat probe) as [metrics|]; [|discriminate].
  destruct (scaleAll _ _ _ _) as [[] s|s|s]; [|discriminate..].
  by intros [= <-].
Qed.

Lemma manager_frame (probes : list ProbeResult) st :
  let st' := finalState (StartScalingManager docker ParseFloat probes st) in
  activeModels st' = activeModels st
  /\ currentWorkers st' = currentWorkers st
  /\ nextPort st' = nextPort st
  /\ trace st' = trace st.
Proof.
  revert st. induction probes as [|probe rest IH]; intros st; [simpl; auto|].
  cbn [StartScalingManager]. unfold bind.
  pose proof (cycle_frame probe st) as (Ham & Hcw & Hnp & Htr & _).
  destruct (scaleModelsBasedOnDemand docker ParseFloat probe st)
    as [[] st1|st1|st1]; cbn [finalState] in *; [|auto..].
  destruct (IH st1) as (Ham' & Hcw' & Hnp' & Htr').
  rewrite Ham', Hcw', Hnp', Htr'. auto.
Qed.

End CycleFrame.



(** X7. A scaling cycle never calls the container runtime and never
    changes the registry: however it ends (it returns, it blocks on the
    mutex, it panics on the probe output), the active models, the worker
    counts, the next port and the trace of runtime calls are those it
    started with, and so are the request counters of models that are not
    registered. *)
Theorem scaleModelsBasedOnDemand_never_calls_runtime :
  forall (docker : list Event -> DockerCmd -> bool)
         (ParseFloat : string -> Float64.t) (probe : ProbeResult) (st : State),
    let st' := finalState (scaleModelsBasedOnDemand docker ParseFloat probe st) in
    activeModels st' = activeModels st
    /\ currentWorkers st' = currentWorkers st
    /\ nextPort st' = nextPort st
    /\ trace st' = trace st
    /\ (forall m, activeModels st !! m = None ->
                  requestCounts st' !! m = requestCounts st !! m).
Proof. intros docker ParseFloat probe st. apply cycle_frame. Qed.

(** X8. The scaling manager, over any number of ticks and whatever the
    probe answers at each, never calls the container runtime and never
    changes the active models, the worker counts or the next port. *)
Theorem StartScalingManager_never_scales :
  forall (docker : list Event -> DockerCmd -> bool)
         (ParseFloat : string -> Float64.t)
         (probes : list ProbeResult) (st : State),
    let st' := finalState (StartScalingManager docker ParseFloat probes st) in
    activeModels st' = activeModels st
    /\ currentWorkers st' = currentWorkers st
    /\ nextPort st' = nextPort st
    /\ trace st' = trace st.
Proof. intros docker ParseFloat probes st. apply manager_frame. Qed.

(** X9. A cycle in which a registered model wants more workers than it has
    never returns: it stops on [scalingLock], which it holds itself, before
    any start is sent. *)
Theorem scaleModelsBasedOnDemand_deadlocks_on_scale_up :
  forall (docker : list Event -> DockerCmd -> bool)
         (ParseFloat : string -> Float64.t)
         (probe : ProbeResult) (metrics : ScalingMetrics)
         (st : State) (model : string),
    scalingLock st = false ->
    getSystemMetrics ParseFloat probe = Value metrics ->
    is_Some (activeModels st !! model) ->
    0 < GoInt.sub
          (calculateDesiredWorkers model (intAt (requestCounts st) model) metrics)
          (intAt (currentWorkers st) model) ->
    intAt (currentWorkers st) model
      < calculateDesiredWorkers model (intAt (requestCounts st) model) metrics ->
    exists st',
      scaleModelsBasedOnDemand docker ParseFloat probe st = Blocked st'
      /\ scalingLock st' = true
      /\ trace st' = trace st
      /\ activeModels st' = activeModels st
      /\ currentWorkers st' = currentWorkers st.
Proof.
  intros docker ParseFloat probe metrics st model Hl Hm Hact Hpos Hlt.
  destruct (scaleModelsBasedOnDemand_blocks docker ParseFloat probe metrics
              st model Hl Hm Hact Hpos Hlt) as (st' & Hrun & Hlk & Htr).
  pose proof (cycle_frame docker ParseFloat probe st) as (Ham & Hcw & _).
  rewrite Hrun in Ham, Hcw. simpl in Ham, Hcw. eauto 10.
Qed.

Lemma scaleModelsBasedOnDemand_deadlocks_on_scale_up_witness :
  exists st',
    scaleModelsBasedOnDemand dockerOk parseSample (ProbeOutput "80, 20000")
      oneModel = Blocked st'
    /\ scalingLock st' = true
    /\ trace st' = [].
Proof.
  destruct (scaleModelsBasedOnDemand_deadlocks_on_scale_up
              dockerOk parseSample (ProbeOutput "80, 20000")
              (metricsOf 80 20000) oneModel "llama")
    as (st' & Hrun & Hlk & Htr & _).
  - reflexivity.
  - reflexivity.
  - exists "11434". reflexivity.
  - vm_compute. reflexivity.
  - vm_compute. reflexivity.
  - exists st'. split; [exact Hrun|]. split; [exact Hlk|exact Htr].
Defined.

(** X11. A cycle whose probe fails cannot block: with worker counts that
    are not negative it decides 0 workers for every model, sends nothing,
    returns with the mutex released and has reset the counter of every
    registered model. *)
Theorem scaleModelsBasedOnDemand_probe_failure_completes :
  forall (docker : list Event -> DockerCmd -> bool)
         (ParseFloat : string -> Float64.t) (st : State),
    scalingLock st = false ->
    (forall m, is_Some (activeModels st !! m) ->
       0 <= intAt (currentWorkers st) m
       /\ GoInt.in_range (intAt (requestCounts st) m)) ->
    exists st',
      scaleModelsBasedOnDemand docker ParseFloat ProbeError st = Done tt st'
      /\ scalingLock st' = false
      /\ (forall m, is_Some (activeModels st !! m) ->
            requestCounts st' !! m = Some 0)
      /\ activeModels st' = activeModels st
      /\ currentWorkers st' = currentWorkers st
      /\ trace st' = trace st.
Proof.
  intros docker ParseFloat st Hl Hinv.
  unfold scaleModelsBasedOnDemand, withLock. rewrite Hl. cbn [getSystemMetrics].
  destruct (scaleAll_done docker zeroMetrics
              (getActiveModels (set_scalingLock true st))
              (set_scalingLock true st))
    as (st' & Hrun & Hlk & Hcw & Ham & _ & Htr & Hin & _).
  { apply getActiveModels_NoDup. }
  { intros m Hm. apply elem_of_getActiveModels in Hm.
    destruct (Hinv m Hm) as [Hw Hr]. cbn [requestCounts currentWorkers set_scalingLock].
    rewrite calculateDesiredWorkers_min.
    pose proof (desiredBase_pos (intAt (requestCounts st) m) zeroMetrics Hr).
    change (maxByVRAM zeroMetrics) with 0. lia. }
  rewrite Hrun. eexists. split; [reflexivity|]. cbn [scalingLock set_scalingLock].
  split; [done|]. split.
  { intros m Hm. cbn [requestCounts set_scalingLock].
    apply Hin. by apply elem_of_getActiveModels. }
  cbn [activeModels currentWorkers trace set_scalingLock]. auto.
Qed.

Lemma scaleModelsBasedOnDemand_probe_failure_completes_witness :
  exists st',
    scaleModelsBasedOnDemand dockerOk parseSample ProbeError
      (set_requestCounts {[ "llama" := 40 ]} oneModel) = Done tt st'
    /\ requestCounts st' !! "llama" = Some 0.
Proof.
  destruct (scaleModelsBasedOnDemand_probe_failure_completes
              dockerOk parseSample
              (set_requestCounts {[ "llama" := 40 ]} oneModel))
    as (st' & Hrun & _ & Hin & _).
  - reflexivity.
  - intros m [port Hm]. simpl in Hm.
    apply lookup_singleton_Some in Hm as [<- _].
    split; vm_compute; [discriminate|split; discriminate].
  - exists st'. split; [exact Hrun|]. apply Hin. exists "11434". reflexivity.
Defined.

(** ** Further properties of the routing path *)

Section Routing.

Variable docker : list Event -> DockerCmd -> bool.
Implicit Types (st : State) (model port : string).

(** The port that [ensureModelRunning] computes for a new model. *)
Lemma routing_port st :
  basePort + Z.of_nat (size (activeModels st)) <= GoInt.max_int ->
  GoInt.add basePort (countActiveModels st)
  = basePort + Z.of_nat (size (activeModels st)).
Proof.
  intros Hb. unfold basePort in *.
  rewrite countActiveModels_size by lia.
  unfold GoInt.add. apply wrap_id.
  unfold GoInt.in_range, GoInt.min_int, GoInt.max_int in *. lia.
Qed.

(** What [ensureModelRunning] does, case by case. *)
Lemma ensureModelRunning_cases model st :
  basePort + Z.of_nat (size (activeModels st)) <= GoInt.max_int ->
  match activeModels st !! model with
  | Some port => ensureModelRunning docker model st = Done (Some port) st
  | None =>
      let port := pretty (basePort + Z.of_nat (size (activeModels st))) in
      let ev ok := {| cmd := DockerRun model port; succeeded := ok |} in
      if docker (trace st) (DockerRun model port)
      then ensureModelRunning docker model st
           = Done (Some port)
               (set_activeModels (<[model := port]> (activeModels st))
                  (set_trace (ev true :: trace st) st))
      else ensureModelRunning docker model st
           = Done None (set_trace (ev false :: trace st) st)
  end.
Proof.
  intros Hb.
  assert (Hrun : ensureModelRunning docker model st
                 = match activeModels st !! model with
                   | Some port => Done (Some port) st
                   | None =>
                       bind (startOllamaContainer docker model
                               (pretty (GoInt.add basePort (countActiveModels st))))
                         (fun ok : bool =>
                            if ok
                            then ret (Some (pretty (GoInt.add basePort
                                                      (countActiveModels st))))
                            else ret None) st
                   end).
  { unfold ensureModelRunning, bind at 1, get.
    by destruct (activeModels st !! model). }
  rewrite Hrun. clear Hrun.
  destruct (activeModels st !! model) as [port|] eqn:Hact; [reflexivity|].
  rewrite routing_port by done. cbv zeta.
  unfold bind, startOllamaContainer, bind, dockerExec.
  destruct (docker (trace st) _); reflexivity.
Qed.

(** One request keeps the two invariants of the ports. *)
Lemma route_keeps_ports model st :
  scalingLock st = false ->
  basePort + Z.of_nat (size (activeModels st)) <= GoInt.max_int ->
  distinctPorts st -> portsBelowCount st ->
  exists r st',
    route docker model st = Done r st'
    /\ scalingLock st' = false
    /\ distinctPorts st' /\ portsBelowCount st'
    /\ (size (activeModels st') <= S (size (activeModels st)))%nat
    /\ (forall m p, activeModels st !! m = Some p -> activeModels st' !! m = Some p)
    /\ (match r with
        | Some port => activeModels st' !! model = Some port
        | None => activeModels st' = activeModels st
        end).
Proof.
  intros Hl Hb Hdist Hbelow. unfold route, bind.
  rewrite TrackRequest_unlocked by done.
  set (st0 := set_requestCounts _ st).
  pose proof (ensureModelRunning_cases model st0 Hb) as Hcases.
  change (activeModels st0) with (activeModels st) in *.
  change (trace st0) with (trace st) in *.
  destruct (activeModels st !! model) as [port|] eqn:Hact.
  - rewrite Hcases. exists (Some port), st0. repeat split; auto.
  - cbv zeta in Hcases.
    set (port := pretty (basePort + Z.of_nat (size (activeModels st)))) in *.
    destruct (docker (trace st) (DockerRun model port)); rewrite Hcases.
    + eexists _, _. split; [reflexivity|]. cbn [scalingLock activeModels
        set_activeModels set_trace set_requestCounts st0].
      split; [done|]. split; [|split; [|split; [|split]]].
      * intros m1 m2 p H1 H2. cbn [activeModels set_activeModels] in H1, H2.
        assert (Hfresh : forall m, activeModels st !! m = Some port -> False).
        { intros m Hm. destruct (Hbelow m port Hm) as (k & Hk & Heq).
          apply (inj pretty) in Heq. lia. }
        destruct (decide (m1 = model)) as [->|Hn1];
          destruct (decide (m2 = model)) as [->|Hn2]; [done| | |].
        -- rewrite lookup_insert_eq in H1. rewrite lookup_insert_ne in H2 by done.
           injection H1 as <-. by destruct (Hfresh m2).
        -- rewrite lookup_insert_eq in H2. rewrite lookup_insert_ne in H1 by done.
           injection H2 as <-. by destruct (Hfresh m1).
        -- rewrite lookup_insert_ne in H1, H2 by done. by eapply Hdist.
      * intros m p Hm. cbn [activeModels set_activeModels] in *.
        rewrite map_size_insert_None by done.
        destruct (decide (m = model)) as [->|Hne].
        -- rewrite lookup_insert_eq in Hm. injection Hm as <-.
           exists (Z.of_nat (size (activeModels st))). split; [lia|done].
        -- rewrite lookup_insert_ne in Hm by done.
           destruct (Hbelow m p Hm) as (k & Hk & Heq). exists k. split; [lia|done].
      * rewrite map_size_insert_None by done. lia.
      * intros m p Hm. rewrite lookup_insert_ne; [done|]. intros ->. congruence.
      * by rewrite lookup_insert_eq.
    + eexists _, _. split; [reflexivity|]. repeat split; auto.
Qed.

Lemma routeAll_keeps_ports (models : list string) st :
  scalingLock st = false ->
  basePort + Z.of_nat (size (activeModels st)) + Z.of_nat (length models)
    <= GoInt.max_int ->
  distinctPorts st -> portsBelowCount st ->
  exists rs st',
    routeAll docker models st = Done rs st'
    /\ length rs = length models
    /\ scalingLock st' = false
    /\ distinctPorts st' /\ portsBelowCount st'
    /\ (forall m p, activeModels st !! m = Some p -> activeModels st' !! m = Some p).
Proof.
  revert st. induction models as [|model rest IH]; intros st Hl Hb Hdist Hbelow.
  - exists [], st. repeat split; auto.
  - cbn [length] in Hb. cbn [routeAll]. unfold bind at 1.
    destruct (route_keeps_ports model st Hl ltac:(lia) Hdist Hbelow)
      as (r & st1 & Hrun & Hl1 & Hdist1 & Hbelow1 & Hsize & Hkeep & _).
    rewrite Hrun.
    destruct (IH st1 Hl1 ltac:(lia) Hdist1 Hbelow1)
      as (rs & st' & Hrun' & Hlen & Hl' & Hdist' & Hbelow' & Hkeep').
    unfold bind. rewrite Hrun'. exists (r :: rs), st'.
    split; [reflexivity|]. split; [simpl; by rewrite Hlen|].
    repeat split; auto.
Qed.

(** Counting [n] requests. *)
Lemma trackRequests_adds model (n : nat) st :
  scalingLock st = false ->
  GoInt.min_int <= intAt (requestCounts st) model ->
  intAt (requestCounts st) model + Z.of_nat n <= GoInt.max_int ->
  exists st',
    trackRequests model n st = Done tt st'
    /\ scalingLock st' = false
    /\ intAt (requestCounts st') model = intAt (requestCounts st) model + Z.of_nat n
    /\ (forall m, m <> model -> requestCounts st' !! m = requestCounts st !! m)
    /\ activeModels st' = activeModels st
    /\ trace st' = trace st.
Proof.
  revert st. induction n as [|n IH]; intros st Hl Hlo Hhi.
  - exists st. simpl. unfold ret. repeat split; auto. lia.
  - cbn [trackRequests]. unfold bind. rewrite TrackRequest_unlocked by done.
    set (st1 := set_requestCounts _ st).
    assert (Hone : intAt (requestCounts st1) model
                   = intAt (requestCounts st) model + 1).
    { unfold st1, intAt at 1. simpl. rewrite lookup_insert_eq. simpl.
      unfold GoInt.add. apply wrap_id. unfold GoInt.in_range. lia. }
    destruct (IH st1 Hl ltac:(lia) ltac:(lia))
      as (st' & Hrun & Hl' & Hcnt & Hoth & Ham & Htr).
    exists st'. split; [done|]. split; [done|]. split; [lia|].
    split; [|by rewrite Ham, Htr].
    intros m Hm. rewrite Hoth by done. unfold st1. simpl.
    by rewrite lookup_insert_ne.
Qed.

End Routing.

(** X12. [ensureModelRunning] for a model that is not registered, with [n]
    models registered, asks the runtime for port 11434 + n. If the start
    succeeds the model is registered on that port and the port is returned;
    if it fails an error is returned and the registry is unchanged, so the
    next request computes the same port again. For a registered model the
    stored port is returned without any call to the runtime. *)
Theorem ensureModelRunning_port_from_count :
  forall (docker : list Event -> DockerCmd -> bool) (model : string) (st : State),
    basePort + Z.of_nat (size (activeModels st)) <= GoInt.max_int ->
    exists r st',
      ensureModelRunning docker model st = Done r st'
      /\ match activeModels st !! model with
         | Some port => r = Some port /\ st' = st
         | None =>
             let port := pretty (11434 + Z.of_nat (size (activeModels st))) in
             exists ok,
               trace st' = {| cmd := DockerRun model port; succeeded := ok |} :: trace st
               /\ (if ok
                   then r = Some port
                        /\ activeModels st' = <[model := port]> (activeModels st)
                   else r = None /\ activeModels st' = activeModels st)
         end.
Proof.
  intros docker model st Hb.
  pose proof (ensureModelRunning_cases docker model st Hb) as Hc.
  destruct (activeModels st !! model) as [port|].
  - exists (Some port), st. auto.
  - cbv zeta in Hc. change basePort with 11434 in Hc.
    destruct (docker (trace st) _) eqn:Hok; rewrite Hc; eexists _, _;
      (split; [reflexivity|]); [exists true|exists false]; simpl; auto.
Qed.

Lemma ensureModelRunning_port_from_count_witness :
  exists st',
    ensureModelRunning dockerOk "mistral" oneModel = Done (Some "11435") st'
    /\ activeModels st' !! "mistral" = Some "11435".
Proof.
  destruct (ensureModelRunning_port_from_count dockerOk "mistral" oneModel)
    as (r & st' & Hrun & Hcase).
  - unfold GoInt.max_int. vm_compute. discriminate.
  - change (activeModels oneModel !! "mistral") with (@None string) in Hcase.
    destruct Hcase as ([|] & Htr & Hr).
    + destruct Hr as [-> Hact]. exists st'. split; [exact Hrun|].
      rewrite Hact. reflexivity.
    + exfalso. vm_compute in Hrun. injection Hrun as _ <-.
      vm_compute in Htr. discriminate Htr.
Defined.

(** X13. Requests served one after the other never put two models on one
    port: starting from a registry whose ports are distinct and of the form
    11434 + k with k below the number of models (the empty registry is
    one), every sequence of requests returns, whatever the runtime answers,
    with a registry of the same kind, and no registered model has lost or
    changed its port. *)
Theorem sequential_requests_distinct_ports :
  forall (docker : list Event -> DockerCmd -> bool)
         (models : list string) (st : State),
    scalingLock st = false ->
    basePort + Z.of_nat (size (activeModels st)) + Z.of_nat (length models)
      <= GoInt.max_int ->
    distinctPorts st -> portsBelowCount st ->
    exists rs st',
      routeAll docker models st = Done rs st'
      /\ length rs = length models
      /\ distinctPorts st' /\ portsBelowCount st'
      /\ (forall m p, activeModels st !! m = Some p ->
                      activeModels st' !! m = Some p).
Proof.
  intros docker models st Hl Hb Hdist Hbelow.
  destruct (routeAll_keeps_ports docker models st Hl Hb Hdist Hbelow)
    as (rs & st' & Hrun & Hlen & _ & Hdist' & Hbelow' & Hkeep).
  exists rs, st'. auto.
Qed.

Lemma sequential_requests_distinct_ports_witness :
  exists rs st',
    routeAll dockerFlaky ["a"; "b"; "a"; "c"] initialState = Done rs st'
    /\ distinctPorts st'.
Proof.
  destruct (sequential_requests_distinct_ports dockerFlaky
              ["a"; "b"; "a"; "c"] initialState)
    as (rs & st' & Hrun & _ & Hdist & _).
  - reflexivity.
  - unfold GoInt.max_int. vm_compute. discriminate.
  - intros m1 m2 port H1. simpl in H1. rewrite lookup_empty in H1. discriminate.
  - intros m port H1. simpl in H1. rewrite lookup_empty in H1. discriminate.
  - exists rs, st'. split; [exact Hrun|exact Hdist].
Defined.

(** X14. A request that runs with no other request overlapping it never
    unregisters a model and never moves one to another port: after [route],
    every model that was registered still is, on the same port; when the
    request is answered with a port, that port is the one registered for
    its model. (The [Store] of an overlapping request can move a model, as
    in C2 and C3.) *)
Theorem route_keeps_registered_models :
  forall (docker : list Event -> DockerCmd -> bool) (model : string) (st : State),
    scalingLock st = false ->
    exists r st',
      route docker model st = Done r st'
      /\ (forall m p, activeModels st !! m = Some p ->
                      activeModels st' !! m = Some p)
      /\ (forall port, r = Some port -> activeModels st' !! model = Some port)
      /\ (r = None -> activeModels st' = activeModels st).
Proof.
  intros docker model st Hl. unfold route, bind.
  rewrite TrackRequest_unlocked by done.
  set (st0 := set_requestCounts _ st).
  unfold ensureModelRunning, bind at 1, get.
  change (activeModels st0) with (activeModels st).
  destruct (activeModels st !! model) as [port|] eqn:Hact.
  - exists (Some port), st0. split; [reflexivity|].
    split; [auto|]. split; [by intros ? [= <-]|done].
  - unfold bind, startOllamaContainer, bind, dockerExec.
    destruct (docker (trace st0) _); eexists _, _; (split; [reflexivity|]);
      cbn [activeModels set_activeModels set_trace st0 set_requestCounts].
    + split; [|split; [|done]].
      * intros m p Hm. rewrite lookup_insert_ne; [done|]. intros ->. congruence.
      * intros port [= <-]. by rewrite lookup_insert_eq.
    + split; [auto|]. split; [done|auto].
Qed.

Lemma route_keeps_registered_models_witness :
  exists r st',
    route dockerDown "mistral" oneModel = Done r st'
    /\ activeModels st' !! "llama" = Some "11434".
Proof.
  destruct (route_keeps_registered_models dockerDown "mistral" oneModel)
    as (r & st' & Hrun & Hkeep & _).
  - reflexivity.
  - exists r, st'. split; [exact Hrun|]. apply Hkeep. reflexivity.
Defined.

(** X15. [TrackRequest] called n times for a model, with the mutex free,
    raises the counter of that model by exactly n (as long as the counter
    stays within [int]) and touches no other counter, nor the registry. *)
Theorem trackRequests_adds_n :
  forall (model : string) (n : nat) (st : State),
    scalingLock st = false ->
    GoInt.min_int <= intAt (requestCounts st) model ->
    intAt (requestCounts st) model + Z.of_nat n <= GoInt.max_int ->
    exists st',
      trackRequests model n st = Done tt st'
      /\ intAt (requestCounts st') model
         = intAt (requestCounts st) model + Z.of_nat n
      /\ (forall m, m <> model -> requestCounts st' !! m = requestCounts st !! m)
      /\ activeModels st' = activeModels st.
Proof.
  intros model n st Hl Hlo Hhi.
  destruct (trackRequests_adds model n st Hl Hlo Hhi)
    as (st' & Hrun & _ & Hcnt & Hoth & Ham & _).
  exists st'. auto.
Qed.

Lemma trackRequests_adds_n_witness :
  exists st',
    trackRequests "llama" 12 initialState = Done tt st'
    /\ intAt (requestCounts st') "llama" = 12.
Proof.
  destruct (trackRequests_adds_n "llama" 12 initialState)
    as (st' & Hrun & Hcnt & _).
  - reflexivity.
  - vm_compute. discriminate.
  - vm_compute. discriminate.
  - exists st'. split; [exact Hrun|]. rewrite Hcnt. reflexivity.
Defined.

(** ** Further properties of scale-up and of the metrics probe *)

Section ScaleUpPorts.

Variable docker : list Event -> DockerCmd -> bool.
Implicit Types (st : State) (model : string).

Lemma scaleUpLoop_ports model (n : nat) st :
  scalingLock st = false ->
  GoInt.min_int <= nextPort st ->
  nextPort st + Z.of_nat n <= GoInt.max_int ->
  exists st' evs,
    scaleUpLoop docker model n st = Done tt st'
    /\ trace st' = evs ++ trace st
    /\ List.map cmd (rev evs)
       = List.map (fun k => DockerRun model (pretty (nextPort st + Z.of_nat k)))
           (seq 0 n)
    /\ nextPort st' = nextPort st + Z.of_nat n.
Proof.
  revert st. induction n as [|n IH]; intros st Hl Hlo Hhi.
  - exists st, []. simpl. unfold ret. repeat split; auto. lia.
  - assert (Hadd : GoInt.add (nextPort st) 1 = nextPort st + 1).
    { unfold GoInt.add. apply wrap_id. unfold GoInt.in_range. lia. }
    cbn [scaleUpLoop]. unfold bind at 1.
    rewrite findAvailablePort_unlocked by done. rewrite Hadd.
    set (port := pretty (nextPort st)).
    set (st1 := set_nextPort _ st).
    unfold bind at 1. unfold startOllamaContainer, bind at 1, dockerExec.
    set (ok := docker (trace st1) (DockerRun model port)).
    set (ev := {| cmd := DockerRun model port; succeeded := ok |}).
    assert (Hstep : forall st2,
              scalingLock st2 = false ->
              nextPort st2 = nextPort st + 1 ->
              trace st2 = ev :: trace st ->
              exists st' evs,
                scaleUpLoop docker model n st2 = Done tt st'
                /\ trace st' = evs ++ trace st
                /\ List.map cmd (rev evs)
                   = List.map (fun k => DockerRun model
                                          (pretty (nextPort st + Z.of_nat k)))
                       (seq 0 (S n))
                /\ nextPort st' = nextPort st + Z.of_nat (S n)).
    { intros st2 Hl2 Hnp Htr2.
      destruct (IH st2 Hl2 ltac:(lia) ltac:(lia))
        as (st' & evs & Hrun & Htr & Hcmds & Hnp').
      exists st', (evs ++ [ev]). split; [exact Hrun|].
      split; [by rewrite Htr, Htr2, <- app_assoc|]. split; [|lia].
      rewrite rev_app_distr. cbn [rev app List.map seq]. rewrite Hcmds.
      rewrite <- seq_shift, List.map_map. f_equal.
      - subst ev port. cbn [cmd]. do 2 f_equal. lia.
      - apply List.map_ext. intros k. rewrite Hnp. do 2 f_equal. lia. }
    destruct ok; cbv beta iota delta [bind modify ret]; apply Hstep;
      (exact Hl || reflexivity).
Qed.

End ScaleUpPorts.

(** X16. Run with the mutex free, [scaleUpModel] gives every start a port of
    its own: with p the next port, the starts are sent, in this order, for
    the ports p, p + 1, ..., p + count - 1, which are pairwise distinct,
    and the next port ends at p + count whether the starts succeeded or
    not (the port of a failed start is not handed out again). *)
Theorem scaleUpModel_fresh_ports :
  forall (docker : list Event -> DockerCmd -> bool)
         (model : string) (count : Z) (st : State),
    scalingLock st = false ->
    0 <= count ->
    GoInt.min_int <= nextPort st ->
    nextPort st + count <= GoInt.max_int ->
    exists st' evs,
      scaleUpModel docker model count st = Done tt st'
      /\ trace st' = evs ++ trace st
      /\ List.map cmd (rev evs)
         = List.map (fun k => DockerRun model (pretty (nextPort st + Z.of_nat k)))
             (seq 0 (Z.to_nat count))
      /\ NoDup (List.map cmd (rev evs))
      /\ nextPort st' = nextPort st + count.
Proof.
  intros docker model count st Hl Hc Hlo Hhi.
  destruct (scaleUpLoop_ports docker model (Z.to_nat count) st Hl Hlo ltac:(lia))
    as (st' & evs & Hrun & Htr & Hcmds & Hnp).
  exists st', evs. split; [exact Hrun|]. split; [exact Htr|].
  split; [exact Hcmds|]. split; [|lia].
  rewrite Hcmds.
  assert (Hinj : Inj (=) (=)
            (fun k : nat => DockerRun model (pretty (nextPort st + Z.of_nat k)))).
  { intros k1 k2 Heq. injection Heq as Heq. apply (inj pretty) in Heq. lia. }
  apply (NoDup_fmap_2 _ _ (NoDup_seq 0 (Z.to_nat count))).
Qed.

Lemma scaleUpModel_fresh_ports_witness :
  exists st' evs,
    scaleUpModel dockerFlaky "llama" 3 oneModel = Done tt st'
    /\ trace st' = evs ++ []
    /\ List.map cmd (rev evs)
       = [DockerRun "llama" "11435"; DockerRun "llama" "11436";
          DockerRun "llama" "11437"]
    /\ nextPort st' = 11438.
Proof.
  destruct (scaleUpModel_fresh_ports dockerFlaky "llama" 3 oneModel)
    as (st' & evs & Hrun & Htr & Hcmds & _ & Hnp).
  - reflexivity.
  - lia.
  - vm_compute. discriminate.
  - vm_compute. discriminate.
  - exists st', evs. split; [exact Hrun|]. split; [exact Htr|].
    split; [rewrite Hcmds; vm_compute; reflexivity|exact Hnp].
Defined.

(** X17. [getSystemMetrics] panics exactly on the outputs without a comma:
    when the command has succeeded, it returns a value if and only if its
    output holds one comma or more. *)
Theorem getSystemMetrics_panics_iff_no_comma :
  forall (ParseFloat : string -> Float64.t) (out : string),
    getSystemMetrics ParseFloat (ProbeOutput out) = Panic
    <-> contains "," out = false.
Proof.
  intros ParseFloat out. split.
  - intros Hp. destruct (contains "," out) eqn:Hc; [|reflexivity].
    destruct (getSystemMetrics_returns ParseFloat (ProbeOutput out) Hc)
      as (metrics & Hv & _).
    rewrite Hv in Hp. discriminate.
  - apply getSystemMetrics_without_comma.
Qed.

(** ** The first request and the next cycle *)

Section FirstCycle.

Lemma to_int_in_range (f : Float64.t) : GoInt.in_range (Float64.to_int f).
Proof.
  unfold Float64.to_int, GoInt.in_range.
  destruct (Float64.truncate f) as [z|].
  - destruct ((GoInt.min_int <=? z) && (z <=? GoInt.max_int)) eqn:Hz.
    + apply andb_true_iff in Hz as [H1 H2].
      apply Z.leb_le in H1. apply Z.leb_le in H2. lia.
    + unfold GoInt.min_int, GoInt.max_int. lia.
  - unfold GoInt.min_int, GoInt.max_int. lia.
Qed.

(** With a VRAM cap of 1 or more, the decision for a counter of type [int]
    lies between 1 and the largest [int]. *)
Lemma decision_at_least_one model requests metrics :
  GoInt.in_range requests ->
  1 <= maxByVRAM metrics ->
  1 <= calculateDesiredWorkers model requests metrics <= GoInt.max_int.
Proof.
  intros Hr Hcap. rewrite calculateDesiredWorkers_min.
  pose proof (desiredBase_pos requests metrics Hr).
  pose proof (to_int_in_range (vramQuotient metrics)) as [_ Hmax].
  fold (maxByVRAM metrics) in Hmax. lia.
Qed.

End FirstCycle.

(** X19. The routing path registers a model without counting a worker for
    it, so the first cycle after the first request for a model wants a
    scale-up as soon as the VRAM cap is 1 or more, and blocks: served a
    request for a new model, then run with such metrics,
    [scaleModelsBasedOnDemand] never returns, holds [scalingLock] for good
    and has sent nothing to the runtime. *)
Theorem first_request_then_cycle_deadlocks :
  forall (docker : list Event -> DockerCmd -> bool)
         (ParseFloat : string -> Float64.t)
         (probe : ProbeResult) (metrics : ScalingMetrics)
         (model : string) (st : State),
    scalingLock st = false ->
    activeModels st !! model = None ->
    intAt (currentWorkers st) model = 0 ->
    basePort + Z.of_nat (size (activeModels st)) <= GoInt.max_int ->
    docker (trace st)
      (DockerRun model (pretty (basePort + Z.of_nat (size (activeModels st)))))
    = true ->
    getSystemMetrics ParseFloat probe = Value metrics ->
    1 <= maxByVRAM metrics ->
    exists port st1 st2,
      route docker model st = Done (Some port) st1
      /\ scaleModelsBasedOnDemand docker ParseFloat probe st1 = Blocked st2
      /\ scalingLock st2 = true
      /\ trace st2 = trace st1
      /\ intAt (currentWorkers st2) model = 0.
Proof.
  intros docker ParseFloat probe metrics model st Hl Hnone Hw Hb Hok Hm Hcap.
  unfold route, bind. rewrite TrackRequest_unlocked by done.
  set (st0 := set_requestCounts _ st).
  pose proof (ensureModelRunning_cases docker model st0 Hb) as Hc.
  change (activeModels st0) with (activeModels st) in Hc.
  change (trace st0) with (trace st) in Hc.
  rewrite Hnone in Hc. cbv zeta in Hc. rewrite Hok in Hc. rewrite Hc.
  match goal with |- context [Done (Some ?p) ?s] =>
    set (port := p); set (st1 := s) end.
  assert (Hreq : GoInt.in_range (intAt (requestCounts st1) model)).
  { unfold st1, st0, intAt. simpl. rewrite lookup_insert_eq. simpl.
    apply wrap_in_range. }
  pose proof (decision_at_least_one model _ metrics Hreq Hcap) as [Hlo Hhi].
  assert (Hw1 : intAt (currentWorkers st1) model = 0) by exact Hw.
  destruct (scaleModelsBasedOnDemand_blocks docker ParseFloat probe metrics
              st1 model) as (st2 & Hrun & Hlk & Htr); try done.
  - unfold st1. simpl. rewrite lookup_insert_eq. eauto.
  - rewrite Hw1. unfold GoInt.sub. rewrite Z.sub_0_r, wrap_id; [lia|].
    unfold GoInt.in_range, GoInt.min_int in *. lia.
  - rewrite Hw1. lia.
  - exists port, st1, st2. split; [reflexivity|]. split; [exact Hrun|].
    split; [exact Hlk|]. split; [exact Htr|].
    pose proof (cycle_frame docker ParseFloat probe st1) as (_ & Hcw & _).
    rewrite Hrun in Hcw. simpl in Hcw. unfold intAt. rewrite Hcw. exact Hw1.
Qed.

Lemma first_request_then_cycle_deadlocks_witness :
  exists port st1 st2,
    route dockerOk "llama" initialState = Done (Some port) st1
    /\ scaleModelsBasedOnDemand dockerOk parseSample
         (ProbeOutput "80, 20000") st1 = Blocked st2
    /\ scalingLock st2 = true.
Proof.
  destruct (first_request_then_cycle_deadlocks dockerOk parseSample
              (ProbeOutput "80, 20000") (metricsOf 80 20000)
              "llama" initialState)
    as (port & st1 & st2 & Hroute & Hcycle & Hlk & _).
  - reflexivity.
  - reflexivity.
  - reflexivity.
  - vm_compute. discriminate.
  - reflexivity.
  - reflexivity.
  - vm_compute. discriminate.
  - exists port, st1, st2. split; [exact Hroute|]. split; [exact Hcycle|exact Hlk].
Defined.
